(** * pymt: the Merkle tree wrapper [MerkleTree] of [src/merkletools/mt.py]

    A shallow embedding of the class [MerkleTree(MerkleTools)] and the
    properties its specification states about it.

    Layout:
    - Python data: byte strings, text strings with the UTF-8 codec behind
      [str.encode()] / [bytes.decode()], the dynamically typed values the
      methods test with [isinstance], exceptions;
    - the interface [MerkleTree] inherits from ([MerkleTools]) and the
      methods of [mt.py] written over it;
    - a model of the inherited class, taken from the specification;
    - the theorems. *)

From Stdlib Require Import String Ascii.
From Stdlib Require Import List ZArith NArith Lia Bool.
From Stdlib Require Import Strings.Byte.
From Stdlib Require Import DecimalString.
Import ListNotations.

Set Implicit Arguments.
Set Warnings "-register-all".  (* [pyval] nests through [list] and [prod] *)

(** ** Byte strings and text strings *)

(** A Python [bytes] object. *)
Definition bytes := list byte.

(** A Python [str]: a sequence of Unicode code points. *)
Definition pystr := list N.

(** A string literal of the source, as code points. *)
Definition lit (s : string) : pystr :=
  map N_of_ascii (list_ascii_of_string s).

(** The byte with value [n mod 256]. *)
Definition byte_of_N (n : N) : byte :=
  match Byte.of_N (n mod 256) with
  | Some b => b
  | None => x00
  end.

(** ** Exceptions and results *)

Inductive exn :=
| TypeError
| AttributeError
| NotImplementedError
| UnicodeEncodeError
| UnicodeDecodeError
| UnsupportedAlgorithm
| EmptyTree
| IndexOutOfRange
| MalformedProof.

Inductive result (A : Type) :=
| Ok (a : A)
| Raise (e : exn).

Arguments Ok {A} a.
Arguments Raise {A} e.

Definition rbind {A B} (r : result A) (k : A -> result B) : result B :=
  match r with
  | Ok a => k a
  | Raise e => Raise e
  end.

(** A method body: it reads and updates the object [S] it is called on and
    either returns or raises; what was updated before a raise stays. *)
Definition M (S A : Type) := S -> result A * S.

Definition ret {S A} (a : A) : M S A := fun s => (Ok a, s).
Definition raise {S A} (e : exn) : M S A := fun s => (Raise e, s).
Definition bind {S A B} (c : M S A) (k : A -> M S B) : M S B :=
  fun s =>
    match c s with
    | (Ok a, s') => k a s'
    | (Raise e, s') => (Raise e, s')
    end.
Definition lift {S A} (r : result A) : M S A := fun s => (r, s).

Declare Scope py_scope.
Delimit Scope py_scope with py.
Notation "x <- c ;; k" := (bind c (fun x => k))
  (at level 61, c at next level, right associativity) : py_scope.
Notation "c ;;; k" := (bind c (fun _ => k))
  (at level 61, right associativity) : py_scope.
Open Scope py_scope.

(** ** UTF-8: [str.encode()] and [bytes.decode()] *)

Definition is_surrogate (c : N) : bool :=
  ((0xD800 <=? c) && (c <=? 0xDFFF))%N.

(** The UTF-8 bytes of one code point; [None] where Python raises
    [UnicodeEncodeError] (a lone surrogate). *)
Definition encode_cp (c : N) : option bytes :=
  (if c <? 0x80 then Some [byte_of_N c]
   else if c <? 0x800 then
     Some [byte_of_N (N.lor 0xC0 (N.shiftr c 6));
           byte_of_N (N.lor 0x80 (N.land c 0x3F))]
   else if c <? 0x10000 then
     if is_surrogate c then None
     else Some [byte_of_N (N.lor 0xE0 (N.shiftr c 12));
                byte_of_N (N.lor 0x80 (N.land (N.shiftr c 6) 0x3F));
                byte_of_N (N.lor 0x80 (N.land c 0x3F))]
   else if c <? 0x110000 then
     Some [byte_of_N (N.lor 0xF0 (N.shiftr c 18));
           byte_of_N (N.lor 0x80 (N.land (N.shiftr c 12) 0x3F));
           byte_of_N (N.lor 0x80 (N.land (N.shiftr c 6) 0x3F));
           byte_of_N (N.lor 0x80 (N.land c 0x3F))]
   else None)%N.

(** [s.encode()] *)
Fixpoint py_encode (s : pystr) : result bytes :=
  match s with
  | [] => Ok []
  | c :: rest =>
      match encode_cp c with
      | None => Raise UnicodeEncodeError
      | Some bs => rbind (py_encode rest) (fun out => Ok (bs ++ out))
      end
  end.

Definition is_cont (b : byte) : bool :=
  ((0x80 <=? Byte.to_N b) && (Byte.to_N b <=? 0xBF))%N.

Definition cont_bits (b : byte) : N := N.land (Byte.to_N b) 0x3F.

(** [b.decode()]: the strict UTF-8 decoder (no overlong forms, no
    surrogates, nothing above U+10FFFF). *)
Fixpoint py_decode (b : bytes) : result pystr :=
  match b with
  | [] => Ok []
  | b0 :: r0 =>
      let n0 := Byte.to_N b0 in
      if (n0 <? 0x80)%N then
        rbind (py_decode r0) (fun out => Ok (n0 :: out))
      else if ((0xC2 <=? n0) && (n0 <=? 0xDF))%N then
        match r0 with
        | b1 :: r1 =>
            if is_cont b1 then
              rbind (py_decode r1) (fun out =>
                Ok (N.lor (N.shiftl (N.land n0 0x1F) 6) (cont_bits b1) :: out))
            else Raise UnicodeDecodeError
        | _ => Raise UnicodeDecodeError
        end
      else if ((0xE0 <=? n0) && (n0 <=? 0xEF))%N then
        match r0 with
        | b1 :: b2 :: r2 =>
            let c := N.lor (N.shiftl (N.land n0 0x0F) 12)
                       (N.lor (N.shiftl (cont_bits b1) 6) (cont_bits b2)) in
            if is_cont b1 && is_cont b2 && (0x800 <=? c)%N
               && negb (is_surrogate c) then
              rbind (py_decode r2) (fun out => Ok (c :: out))
            else Raise UnicodeDecodeError
        | _ => Raise UnicodeDecodeError
        end
      else if ((0xF0 <=? n0) && (n0 <=? 0xF4))%N then
        match r0 with
        | b1 :: b2 :: b3 :: r3 =>
            let c := N.lor (N.shiftl (N.land n0 0x07) 18)
                       (N.lor (N.shiftl (cont_bits b1) 12)
                          (N.lor (N.shiftl (cont_bits b2) 6) (cont_bits b3))) in
            if is_cont b1 && is_cont b2 && is_cont b3
               && (0x10000 <=? c)%N && (c <? 0x110000)%N then
              rbind (py_decode r3) (fun out => Ok (c :: out))
            else Raise UnicodeDecodeError
        | _ => Raise UnicodeDecodeError
        end
      else Raise UnicodeDecodeError
  end.

(** ** Hexadecimal text: [hexdigest()] *)

Definition hex_digit (d : N) : N :=
  (if d <? 10 then 48 + d else 87 + d)%N.

(** The two lowercase hexadecimal digits of every byte. *)
Definition to_hex (b : bytes) : pystr :=
  flat_map (fun x => [hex_digit (Byte.to_N x / 16);
                      hex_digit (Byte.to_N x mod 16)]) b.

Definition hex_value (c : N) : option N :=
  (if (48 <=? c) && (c <=? 57) then Some (c - 48)
   else if (97 <=? c) && (c <=? 102) then Some (c - 87)
   else if (65 <=? c) && (c <=? 70) then Some (c - 55)
   else None)%N.

(** The byte string a hexadecimal text denotes; [None] when a character is
    not a hexadecimal digit or the length is odd. *)
Fixpoint from_hex (s : pystr) : option bytes :=
  match s with
  | [] => Some []
  | hi :: lo :: rest =>
      match hex_value hi, hex_value lo, from_hex rest with
      | Some h, Some l, Some out => Some (byte_of_N (16 * h + l) :: out)
      | _, _, _ => None
      end
  | _ => None
  end.

(** ** Python values *)

(** The values without parts: what can be a [dict] key, and what [str()]
    is applied to in the source. *)
Inductive atom :=
| ANone
| ABool (b : bool)
| AInt (z : Z)
| AStr (s : pystr)
| ABytes (b : bytes).

(** The values the methods are called with: [None], [bool], [int], [str],
    [bytes], and [dict] with its items in insertion order. *)
Inductive pyval :=
| Atom (a : atom)
| VDict (items : list (atom * pyval)).

Abbreviation VNone := (Atom ANone).
Abbreviation VBool b := (Atom (ABool b)).
Abbreviation VInt z := (Atom (AInt z)).
Abbreviation VStr s := (Atom (AStr s)).
Abbreviation VBytes b := (Atom (ABytes b)).

Inductive pytype := Tbytes | Tstr | Tdict | Tbool | Tint | TNoneType.

Definition type_of (v : pyval) : pytype :=
  match v with
  | VNone => TNoneType
  | VBool _ => Tbool
  | VInt _ => Tint
  | VStr _ => Tstr
  | VBytes _ => Tbytes
  | VDict _ => Tdict
  end.

(** [isinstance(v, t)]; [bool] is a subclass of [int]. *)
Definition isinstance (v : pyval) (t : pytype) : bool :=
  match type_of v, t with
  | Tbytes, Tbytes | Tstr, Tstr | Tdict, Tdict | Tbool, Tbool
  | Tint, Tint | TNoneType, TNoneType => true
  | Tbool, Tint => true
  | _, _ => false
  end.

(** The truth value of a tuple display [(a, b, ...)]: a tuple is false
    only when it is empty, whatever it holds. *)
Definition tuple_truth (t : list bool) : bool :=
  match t with
  | [] => false
  | _ :: _ => true
  end.

(** [repr] of a [bytes] object: [b'...'], in double quotes when the bytes
    hold a single quote and no double quote. *)
Definition bytes_quote (b : bytes) : N :=
  if existsb (Byte.eqb x27) b && negb (existsb (Byte.eqb x22) b)
  then 34%N else 39%N.

Definition repr_byte (q : N) (x : byte) : pystr :=
  let n := Byte.to_N x in
  (if (n =? q) || (n =? 92) then [92; n]
   else if n =? 9 then [92; 116]
   else if n =? 10 then [92; 110]
   else if n =? 13 then [92; 114]
   else if (n <? 32) || (127 <=? n) then
     [92; 120; hex_digit (n / 16); hex_digit (n mod 16)]
   else [n])%N.

Definition repr_bytes (b : bytes) : pystr :=
  let q := bytes_quote b in
  98%N :: q :: flat_map (repr_byte q) b ++ [q].

(** [str(a)] *)
Definition py_str (a : atom) : pystr :=
  match a with
  | ANone => lit "None"
  | ABool true => lit "True"
  | ABool false => lit "False"
  | AInt z => lit (NilZero.string_of_int (Z.to_int z))
  | AStr s => s
  | ABytes b => repr_bytes b
  end.

(** ** [MerkleTree._convert_dict_to_string] (mt.py, lines 57-82)

    The method does not touch [self].  Line 76 tests a tuple of five
    [isinstance] results.  [new_value] is the accumulator of the loop over
    [dict_value.items()]. *)
Fixpoint _convert_dict_to_string (dict_value : pyval) : result pystr :=
  match dict_value with
  | VDict items =>
      (fix loop (its : list (atom * pyval)) (new_value : pystr)
         : result pystr :=
         match its with
         | [] => Ok new_value
         | (key, val) :: rest =>
             if negb (tuple_truth [isinstance (Atom key) Tbytes;
                                   isinstance (Atom key) Tstr;
                                   isinstance val Tbytes;
                                   isinstance val Tstr;
                                   isinstance val Tdict])
             then Raise TypeError
             else
               match val with
               | VDict _ =>
                   rbind (_convert_dict_to_string val) (fun s =>
                     loop rest (new_value ++ s))
               | Atom a =>
                   loop rest (new_value ++ (py_str key ++ py_str a))
               end
         end) items []
  | Atom _ => Raise TypeError
  end.

(** ** Calling a function

    A [def] of the class body with its positional parameters, [self]
    included when the source lists it.  [instance.name(args)] passes the
    instance as the first positional argument; a call whose argument count
    differs from the parameter count raises [TypeError] before the body
    runs.  (No method of [mt.py] that is called this way below has a
    default or keyword-only parameter.) *)
Record pydef (X R : Type) := {
  def_params : list string;
  def_body : list X -> result R
}.

Definition call_function {X R} (f : pydef X R) (args : list X) : result R :=
  if Nat.eqb (length args) (length (def_params f))
  then def_body f args
  else Raise TypeError.

Definition call_method {X R} (f : pydef X R) (self : X) (args : list X)
  : result R :=
  call_function f (self :: args).

(** ** The inherited class [MerkleTools]

    [mt.py] imports it from [.merkletools]; [MerkleTree] reaches it through
    [super()] and through inherited attributes.  This is its interface as
    [mt.py] uses it: what is [.encode()]d there is a [str], what is iterated
    with [.items()] is a [dict] (here its items in order). *)

(** A [dict] of the proof list: its items. *)
Definition dict (K V : Type) := list (K * V).

Class MerkleTools (B : Type) := {
  (** attribute [is_ready] *)
  is_ready : B -> bool;
  (** attribute [hash_function]: the digest bytes of the hash object it
      constructs over a byte string *)
  hash_function : B -> bytes -> bytes;
  (** [MerkleTools.__init__(hash_type=...)] *)
  super_init : pyval -> result B;
  add_leaf : pyval -> bool -> M B Z;
  get_leaf : Z -> M B pystr;
  get_leaf_count : M B Z;
  super_make_tree : M B unit;
  super_reset_tree : M B unit;
  super_get_merkle_root : M B pystr;
  super_get_proof_of_inclusion : Z -> M B (list (dict pystr pystr));
  super_verify_proof_of_inclusion :
    list (dict pystr pystr) -> pystr -> pystr -> M B bool
}.

(** The class [Proof] of [.proof], as [mt.py] builds and reads it:
    [Proof(target_key_hash=, root_hash=, proof_hash=, type=)], read back as
    [.target], [.trie_root], [.proof]. *)
Record InclusionProof := {
  target : bytes;
  trie_root : bytes;
  proof : list (dict bytes bytes);
  type : pystr
}.

(** What [verify_proof_of_inclusion] can be handed. *)
Inductive pyobj :=
| OVal (v : pyval)
| OProof (p : InclusionProof).

(** [hashlib]'s constructors take bytes-like data only. *)
Definition hash_object (h : bytes -> bytes) (data : pyval) : result bytes :=
  match data with
  | VBytes b => Ok (h b)
  | _ => Raise TypeError
  end.

(** [.hexdigest()] of a hash object. *)
Definition hexdigest (digest : bytes) : pystr := to_hex digest.

(** [index] as the [int] it is once [isinstance(index, int)] holds. *)
Definition int_value (v : pyval) : Z :=
  match v with
  | VInt z => z
  | VBool true => 1
  | _ => 0
  end.

(** The double loop of both proof methods:
    [for p in proof: for k, v in p.items(): out.append({f(k): f(v)})]. *)
Section ProofLoops.
Context {X Y : Type} (f : X -> result Y).

Fixpoint convert_items (items : dict X X) (out : list (dict Y Y))
  : result (list (dict Y Y)) :=
  match items with
  | [] => Ok out
  | (k, v) :: rest =>
      rbind (f k) (fun k' =>
      rbind (f v) (fun v' =>
      convert_items rest (out ++ [[(k', v')]])))
  end.

Fixpoint convert_proof (proof : list (dict X X)) (out : list (dict Y Y))
  : result (list (dict Y Y)) :=
  match proof with
  | [] => Ok out
  | p :: rest =>
      rbind (convert_items p out) (fun out' => convert_proof rest out')
  end.
End ProofLoops.

(** ** The class [MerkleTree] (mt.py) *)

(** An instance: the attribute [__init__] sets, and the attributes of the
    inherited class. *)
Record MerkleTree (B : Type) := {
  _secure : bool;
  base : B
}.

(** The instance while [__init__] runs: an attribute is [None] until it is
    assigned. *)
Record instance (B : Type) := {
  attr_secure : option bool;
  attr_base : option B
}.

Definition blank {B} : instance B :=
  {| attr_secure := None; attr_base := None |}.

Section Methods.
Context {B : Type} `{MerkleTools B}.

Local Abbreviation tree := (MerkleTree B).

(** [super().method(...)], [self.inherited(...)]: the inherited method on
    the attributes of the same object. *)
Definition super {A} (c : M B A) : M tree A :=
  fun self =>
    let (r, b) := c (base self) in
    (r, {| _secure := _secure self; base := b |}).

Definition self_ : M tree tree := fun self => (Ok self, self).

(** [__init__] (lines 21-25).  [isinstance(secure, bool)] holds for
    [True] and [False] only. *)
Definition __init__ (secure hash_type : pyval) : M (instance B) unit :=
  if negb (isinstance secure Tbool) then raise TypeError
  else
    match secure with
    | VBool b => fun self =>
        let self1 := {| attr_secure := Some b;
                        attr_base := attr_base self |} in
        match super_init hash_type with
        | Ok b0 =>
            (Ok tt, {| attr_secure := Some b; attr_base := Some b0 |})
        | Raise e => (Raise e, self1)
        end
    | _ => raise TypeError
    end.

(** [MerkleTree(secure, hash_type)]: a blank instance, initialised. *)
Definition new (secure hash_type : pyval) : result tree :=
  match __init__ secure hash_type blank with
  | (Ok _, {| attr_secure := Some s; attr_base := Some b |}) =>
      Ok {| _secure := s; base := b |}
  | (Ok _, _) => Raise AttributeError
  | (Raise e, _) => Raise e
  end.

(** [put] (lines 50-55).  Line 50 tests a tuple of three [isinstance]
    results. *)
Definition put (value : pyval) : M tree unit :=
  if negb (tuple_truth [isinstance value Tbytes;
                        isinstance value Tstr;
                        isinstance value Tdict])
  then raise TypeError
  else
    value <- (if isinstance value Tdict
              then lift (rbind (_convert_dict_to_string value)
                           (fun s => Ok (VStr s)))
              else ret value) ;;
    self <- self_ ;;
    _ <- super (add_leaf value (_secure self)) ;;
    ret tt.

(** [put_list] (lines 99-100), over the list it is handed. *)
Fixpoint put_list (values : list pyval) : M tree unit :=
  match values with
  | [] => ret tt
  | value :: rest => put value ;;; put_list rest
  end.

(** [convert_value] (lines 116-118) *)
Definition convert_value (value : pyval) : M tree pyval :=
  if negb (isinstance value Tbytes || isinstance value Tstr
           || isinstance value Tdict)
  then raise TypeError
  else
    self <- self_ ;;
    if _secure self
    then lift (rbind (hash_object (hash_function (base self)) value)
                 (fun d => rbind (py_encode (hexdigest d))
                 (fun b => Ok (VBytes b))))
    else ret value.

(** [get] (lines 135-137) *)
Definition get (index : pyval) : M tree bytes :=
  if negb (isinstance index Tint) then raise TypeError
  else
    s <- super (get_leaf (int_value index)) ;;
    lift (py_encode s).

(** [get_count] (line 149) *)
Definition get_count : M tree Z := super get_leaf_count.

(** [make_tree] (line 153) *)
Definition make_tree : M tree unit := super super_make_tree.

(** [reset_tree] (line 157) *)
Definition reset_tree : M tree unit := super super_reset_tree.

(** [get_merkle_root] (lines 169-172) *)
Definition get_merkle_root : M tree pystr :=
  self <- self_ ;;
  (if negb (is_ready (base self)) then make_tree else ret tt) ;;;
  super super_get_merkle_root.

(** [get_proof_of_inclusion] (lines 194-208).  The keyword arguments of
    [Proof(...)] are evaluated in the order written: [key.encode()], then
    [self.get_merkle_root().encode()]. *)
Definition get_proof_of_inclusion (index : pyval)
  : M tree InclusionProof :=
  if negb (isinstance index Tint) then raise TypeError
  else
    key <- super (get_leaf (int_value index)) ;;
    proof <- super (super_get_proof_of_inclusion (int_value index)) ;;
    byte_proof <- lift (convert_proof py_encode proof []) ;;
    target_key_hash <- lift (py_encode key) ;;
    root <- get_merkle_root ;;
    root_hash <- lift (py_encode root) ;;
    ret {| target := target_key_hash;
           trie_root := root_hash;
           proof := byte_proof;
           type := lit "MT POI" |}.

(** [verify_proof_of_inclusion] (lines 224-233).  The arguments of the
    [super()] call are evaluated left to right: [str_proof] is built
    first, then [proof.target.decode()], then
    [proof.trie_root.decode()]. *)
Definition verify_proof_of_inclusion (proof_ : pyobj) : M tree bool :=
  match proof_ with
  | OVal _ => raise TypeError
  | OProof p =>
      str_proof <- lift (convert_proof py_decode (proof p) []) ;;
      target_str <- lift (py_decode (target p)) ;;
      root_str <- lift (py_decode (trie_root p)) ;;
      super (super_verify_proof_of_inclusion str_proof target_str root_str)
  end.

End Methods.

(** [get_proof_of_exclusion] and [verify_proof_of_exclusion]
    (lines 235-239): [def get_proof_of_exclusion(self)] and
    [def verify_proof_of_exclusion()], each with the one statement
    [raise NotImplementedError(...)]. *)
Definition get_proof_of_exclusion {X R} : pydef X R :=
  {| def_params := ["self"%string];
     def_body := fun _ => Raise NotImplementedError |}.

Definition verify_proof_of_exclusion {X R} : pydef X R :=
  {| def_params := [];
     def_body := fun _ => Raise NotImplementedError |}.

(** ** The inherited class, from the specification

    [merkletools.py] is not among the sources.  What follows models it from
    the specification (LeafStore, TreeBuilder, ProofGenerator,
    ProofVerifier), at the types [mt.py] uses it with: a node's byte string
    crosses to [mt.py] as a [str], here its hexadecimal text, the form
    [hexdigest()] gives in [convert_value]. *)
Module Spec.

(** Modelled from the spec: the state of [MerkleTools], which is missing
    from the sources: the selected digest function, the ordered leaf
    store, and the Unbuilt/Built flag.  The levels of a Built tree are a
    pure function of the leaves ([build] below), so the memoized copy is
    not stored. *)
Record tools := {
  hash_fn : bytes -> bytes;
  leaves : list bytes;
  ready : bool
}.

Section Algorithms.
Variable H : bytes -> bytes.

(** Modelled from the spec: one step of TreeBuilder (section 4.3),
    missing from the sources: adjacent nodes are paired left to right
    and combined as [digest(left ++ right)]; the last node of an odd
    level is paired with a duplicate of itself. *)
Fixpoint next_level (level : list bytes) : list bytes :=
  match level with
  | l :: r :: rest => H (l ++ r) :: next_level rest
  | [solo] => [H (solo ++ solo)]
  | [] => []
  end.

(** Modelled from the spec: the loop of TreeBuilder (section 4.3),
    missing from the sources: [repeat until exactly one node remains].
    A level of one node is not combined further, so a single leaf is its
    own root and a tree of [n] leaves has [ceil(log2 n) + 1] levels
    (section 3).  [fuel] bounds the number of rounds; [build] gives it the
    leaf count, which is never used up ([build_from_root]). *)
Fixpoint build_from (fuel : nat) (level : list bytes)
  : list (list bytes) :=
  match level, fuel with
  | _ :: _ :: _, S fuel' => level :: build_from fuel' (next_level level)
  | _, _ => [level]
  end.

(** Modelled from the spec: [build(leaves)] (section 4.3), missing from
    the sources: level 0 is the leaves as given, the last level holds
    the root. *)
Definition build (lvs : list bytes) : list (list bytes) :=
  build_from (length lvs) lvs.

Definition root_of (levels : list (list bytes)) : bytes :=
  hd [] (last levels []).

(** Modelled from the spec: one entry of ProofGenerator (section 4.4),
    missing from the sources: the sibling sits at [index XOR 1]; when
    that is past the end of an odd level the sibling is the duplicated
    node itself; the tag tells on which side of the path node the
    sibling sits. *)
Definition sibling_entry (level : list bytes) (index : nat)
  : dict pystr pystr :=
  let sib := Nat.lxor index 1 in
  let node := nth sib level (nth index level []) in
  [(if sib <? index then lit "left" else lit "right", to_hex node)].

(** Modelled from the spec: ProofGenerator (section 4.4), missing from
    the sources: one entry for each level up to, and excluding, the
    root, in leaf-to-root order, with [index = index / 2] going up. *)
Fixpoint gen_path (levels : list (list bytes)) (index : nat)
  : list (dict pystr pystr) :=
  match levels with
  | level :: ((_ :: _) as upper) =>
      sibling_entry level index :: gen_path upper (index / 2)
  | _ => []
  end.

Definition pystr_eqb (a b : pystr) : bool :=
  if list_eq_dec N.eq_dec a b then true else false.

Definition bytes_eqb (a b : bytes) : bool :=
  if list_eq_dec Byte.byte_eq_dec a b then true else false.

Definition parse_node (s : pystr) : result bytes :=
  match from_hex s with
  | Some b => Ok b
  | None => Raise MalformedProof
  end.

(** Modelled from the spec: the loop of ProofVerifier (section 4.5),
    missing from the sources: [digest(current ++ sibling)] when the
    sibling is on the right, [digest(sibling ++ current)] when it is on
    the left; an entry that is not one tagged digest is a malformed
    proof. *)
Fixpoint fold_path (path : list (dict pystr pystr)) (current : bytes)
  : result bytes :=
  match path with
  | [] => Ok current
  | [(side, digest)] :: rest =>
      rbind (parse_node digest) (fun sibling =>
        if pystr_eqb side (lit "right")
        then fold_path rest (H (current ++ sibling))
        else if pystr_eqb side (lit "left")
        then fold_path rest (H (sibling ++ current))
        else Raise MalformedProof)
  | _ :: _ => Raise MalformedProof
  end.

(** Modelled from the spec: [verify] of ProofVerifier (section 4.5),
    missing from the sources: recompute from the target leaf and
    compare with the claimed root by exact byte equality. *)
Definition verify_path (path : list (dict pystr pystr))
    (target_hash merkle_root : pystr) : result bool :=
  rbind (parse_node target_hash) (fun current =>
  rbind (fold_path path current) (fun computed =>
  rbind (parse_node merkle_root) (fun claimed =>
  Ok (bytes_eqb computed claimed)))).
End Algorithms.

Definition in_range (index : Z) (t : tools) : bool :=
  ((0 <=? index) && (index <? Z.of_nat (length (leaves t))))%Z.

Definition set_ready (r : bool) : M tools unit :=
  fun t => (Ok tt, {| hash_fn := hash_fn t; leaves := leaves t;
                      ready := r |}).

(** Modelled from the spec: [build] of TreeBuilder as a method
    (section 4.3), missing from the sources: zero leaves fail with
    [EmptyTree]; otherwise the tree becomes Built. *)
Definition make_tree : M tools unit :=
  fun t =>
    match leaves t with
    | [] => (Raise EmptyTree, t)
    | _ :: _ => set_ready true t
    end.

(** Modelled from the spec: [append] of LeafStore (section 4.2), missing
    from the sources: the value, or its digest when [do_hash], is stored
    at the next index and the cached tree is invalidated.  A [str] is
    stored as its UTF-8 bytes; other types are rejected. *)
Definition add_leaf (value : pyval) (do_hash : bool) : M tools Z :=
  fun t =>
    let data := match value with
                | VBytes b => Ok b
                | VStr s => py_encode s
                | _ => Raise TypeError
                end in
    match data with
    | Ok b =>
        (Ok (Z.of_nat (length (leaves t))),
         {| hash_fn := hash_fn t;
            leaves := leaves t ++ [if do_hash then hash_fn t b else b];
            ready := false |})
    | Raise e => (Raise e, t)
    end.

(** Modelled from the spec: [get] of LeafStore (section 4.2), missing
    from the sources. *)
Definition get_leaf (index : Z) : M tools pystr :=
  fun t =>
    if in_range index t
    then (Ok (to_hex (nth (Z.to_nat index) (leaves t) [])), t)
    else (Raise IndexOutOfRange, t).

(** Modelled from the spec: [count] of LeafStore (section 4.2), missing
    from the sources. *)
Definition get_leaf_count : M tools Z :=
  fun t => (Ok (Z.of_nat (length (leaves t))), t).

(** Modelled from the spec: [reset] of LeafStore (section 4.2), missing
    from the sources: no leaves, no cached tree. *)
Definition reset_tree : M tools unit :=
  fun t => (Ok tt, {| hash_fn := hash_fn t; leaves := []; ready := false |}).

(** Modelled from the spec: the root query (sections 3 and 4.3), missing
    from the sources: an empty tree rejects it; a mutation since the last
    build forces a rebuild before the root is read. *)
Definition get_merkle_root : M tools pystr :=
  (fun t => if ready t then (Ok tt, t) else make_tree t) ;;;
  fun t =>
    match leaves t with
    | [] => (Raise EmptyTree, t)
    | _ :: _ => (Ok (to_hex (root_of (build (hash_fn t) (leaves t)))), t)
    end.

(** Modelled from the spec: [proveInclusion] of ProofGenerator
    (sections 3 and 4.4), missing from the sources: an empty tree rejects
    the request, an index outside the leaves fails with
    [IndexOutOfRange], and the tree is not changed beyond the rebuild a
    mutation forces. *)
Definition get_proof_of_inclusion (index : Z)
  : M tools (list (dict pystr pystr)) :=
  (fun t => if ready t then (Ok tt, t) else make_tree t) ;;;
  fun t =>
    if in_range index t
    then (Ok (gen_path (build (hash_fn t) (leaves t)) (Z.to_nat index)), t)
    else (Raise IndexOutOfRange, t).

(** Modelled from the spec: [verify] of ProofVerifier (section 4.5),
    missing from the sources: it needs the digest function only. *)
Definition verify_proof_of_inclusion (path : list (dict pystr pystr))
    (target_hash merkle_root : pystr) : M tools bool :=
  fun t => (verify_path (hash_fn t) path target_hash merkle_root, t).

(** Modelled from the spec: construction (section 4.1), missing from the
    sources: [hashlib] is the table of supported algorithms; an
    identifier outside it fails with [UnsupportedAlgorithm]; a new tree
    has no leaves and is Unbuilt. *)
Definition init (hashlib : pystr -> option (bytes -> bytes))
    (hash_type : pyval) : result tools :=
  match hash_type with
  | VStr name =>
      match hashlib name with
      | Some h => Ok {| hash_fn := h; leaves := []; ready := false |}
      | None => Raise UnsupportedAlgorithm
      end
  | _ => Raise UnsupportedAlgorithm
  end.

End Spec.

(** [hashlib]: the table of the algorithms it offers, by name. *)
Class Hashlib := hashlib : pystr -> option (bytes -> bytes).

(** Modelled from the spec: [MerkleTools] as [MerkleTree] inherits it,
    missing from the sources, over the algorithms of [hashlib]. *)
#[export] Instance spec_tools `{Hashlib} : MerkleTools Spec.tools := {
  is_ready := Spec.ready;
  hash_function := Spec.hash_fn;
  super_init := Spec.init hashlib;
  add_leaf := Spec.add_leaf;
  get_leaf := Spec.get_leaf;
  get_leaf_count := Spec.get_leaf_count;
  super_make_tree := Spec.make_tree;
  super_reset_tree := Spec.reset_tree;
  super_get_merkle_root := Spec.get_merkle_root;
  super_get_proof_of_inclusion := Spec.get_proof_of_inclusion;
  super_verify_proof_of_inclusion := Spec.verify_proof_of_inclusion
}.

(** A stand-in algorithm table for the closed examples: one 16-bit
    polynomial checksum under the name [poly16].  The theorems hold for
    every table. *)
Definition poly16 (b : bytes) : bytes :=
  let acc := fold_left (fun acc x => (acc * 31 + Byte.to_N x + 1) mod 65536)%N
               b 7%N in
  [byte_of_N (acc / 256); byte_of_N acc].

Definition toy_hashlib : Hashlib :=
  fun name =>
    if Spec.pystr_eqb name (lit "poly16") then Some poly16 else None.

Definition toy_tools : MerkleTools Spec.tools := @spec_tools toy_hashlib.

(** The instances the closed examples run on. *)
Definition empty_tools : Spec.tools :=
  {| Spec.hash_fn := poly16; Spec.leaves := []; Spec.ready := false |}.

Definition fresh_tree : MerkleTree Spec.tools :=
  {| _secure := true; base := empty_tools |}.

Definition three_leaves : MerkleTree Spec.tools :=
  {| _secure := false;
     base := {| Spec.hash_fn := poly16;
                Spec.leaves := [[x01]; [x61; x62]; [x03]];
                Spec.ready := false |} |}.

(** A dict whose keys and values are all [str]. *)
Definition str_items (d : list (atom * pyval)) : bool :=
  forallb (fun kv => isinstance (Atom (fst kv)) Tstr
                     && isinstance (snd kv) Tstr) d.

(** The ASCII bytes of a text of ASCII characters. *)
Definition ascii_bytes (s : pystr) : bytes := map byte_of_N s.

(** Induction on a value through the values of a dict. *)
Fixpoint pyval_nested_ind (P : pyval -> Prop)
    (Hatom : forall a, P (Atom a))
    (Hdict : forall items,
        Forall (fun kv => P (snd kv)) items -> P (VDict items))
    (v : pyval) : P v :=
  match v with
  | Atom a => Hatom a
  | VDict items =>
      Hdict items
        ((fix go (l : list (atom * pyval))
            : Forall (fun kv => P (snd kv)) l :=
            match l with
            | [] => Forall_nil _
            | kv :: r =>
                Forall_cons kv
                  (pyval_nested_ind P Hatom Hdict (snd kv)) (go r)
            end) items)
  end.

(** Text of ASCII characters. *)
Definition ascii_text (s : pystr) : Prop := Forall (fun c => (c < 128)%N) s.

(** An entry as the generator gives it: one tagged digest, in ASCII. *)
Definition tagged (e : dict pystr pystr) : Prop :=
  exists k v, e = [(k, v)] /\ ascii_text k /\ ascii_text v.

Definition encode_entry (e : dict pystr pystr) : dict bytes bytes :=
  map (fun kv => (ascii_bytes (fst kv), ascii_bytes (snd kv))) e.

(** The loop of [_convert_dict_to_string] (lines 74-81) on its own, from
    any value of the accumulator [new_value]. *)
Definition dict_loop : list (atom * pyval) -> pystr -> result pystr :=
  fix loop (its : list (atom * pyval)) (new_value : pystr)
    : result pystr :=
    match its with
    | [] => Ok new_value
    | (key, val) :: rest =>
        if negb (tuple_truth [isinstance (Atom key) Tbytes;
                              isinstance (Atom key) Tstr;
                              isinstance val Tbytes;
                              isinstance val Tstr;
                              isinstance val Tdict])
        then Raise TypeError
        else
          match val with
          | VDict _ =>
              rbind (_convert_dict_to_string val) (fun s =>
                loop rest (new_value ++ s))
          | Atom a =>
              loop rest (new_value ++ (py_str key ++ py_str a))
          end
    end.

(** The items of the dicts of a proof list, one dict for each item, in
    order: what the double loops of lines 203-205 and 229-231 append. *)
Definition single_items {X : Type} (proof : list (dict X X))
  : list (dict X X) :=
  flat_map (fun p => map (fun kv => [kv]) p) proof.

(** A method that leaves the attribute [_secure] as it finds it. *)
Definition keeps_secure {B A : Type} (c : M (MerkleTree B) A) : Prop :=
  forall t, _secure (snd (c t)) = _secure t.

(** What the loop body of lines 205 and 231 appends for one item: the
    one-item dict of the converted key and value. *)
Definition converted {X Y : Type} (f : X -> result Y) (y : dict Y Y)
    (kv : X * X) : Prop :=
  exists k' v', f (fst kv) = Ok k' /\ f (snd kv) = Ok v' /\ y = [(k', v')].

(** [three_leaves] once built, and the proof of its leaf 2. *)
Definition three_leaves_built : MerkleTree Spec.tools :=
  {| _secure := false;
     base := {| Spec.hash_fn := poly16;
                Spec.leaves := [[x01]; [x61; x62]; [x03]];
                Spec.ready := true |} |}.

Definition proof_of_leaf_2 : InclusionProof :=
  {| target := ascii_bytes (lit "03");
     trie_root := ascii_bytes (lit "7a8e");
     proof := [[(ascii_bytes (lit "right"), ascii_bytes (lit "03"))];
               [(ascii_bytes (lit "left"), ascii_bytes (lit "425c"))]];
     type := lit "MT POI" |}.

(** * Theorems *)

(** ** The codec *)

Example encode_e_acute : py_encode [233%N] = Ok [xc3; xa9].
Proof. reflexivity. Qed.

Example encode_euro : py_encode [0x20AC%N] = Ok [xe2; x82; xac].
Proof. reflexivity. Qed.

Example encode_astral : py_encode [0x1F600%N] = Ok [xf0; x9f; x98; x80].
Proof. reflexivity. Qed.

Example encode_lone_surrogate : py_encode [0xD800%N] = Raise UnicodeEncodeError.
Proof. reflexivity. Qed.

Example decode_mixed :
  py_decode [x61; xc3; xa9; xe2; x82; xac; xf0; x9f; x98; x80]
  = Ok [97; 233; 0x20AC; 0x1F600]%N.
Proof. reflexivity. Qed.

Example decode_overlong : py_decode [xc0; x80] = Raise UnicodeDecodeError.
Proof. reflexivity. Qed.

Example decode_truncated : py_decode [xe2; x82] = Raise UnicodeDecodeError.
Proof. reflexivity. Qed.

Example hex_of_bytes : to_hex [x00; x7a; xff] = lit "007aff".
Proof. reflexivity. Qed.

Example str_of_int : py_str (AInt (-120)) = lit "-120".
Proof. reflexivity. Qed.

Example str_of_bytes : py_str (ABytes [x61; x27; x0a; xff]) = [98; 34; 97; 39; 92; 110; 92; 120; 102; 102; 34]%N.
Proof. reflexivity. Qed.

Example flatten_mixed :
  _convert_dict_to_string
    (VDict [(AStr (lit "ab"), VStr (lit "c"));
            (AInt 3, VDict [(ABytes [x41], VNone)])])
  = Ok (lit "abcb'A'None").
Proof. reflexivity. Qed.

Lemma byte_of_N_to_N (n : N) : (n < 256)%N -> Byte.to_N (byte_of_N n) = n.
Proof.
  intros Hn. unfold byte_of_N.
  rewrite N.mod_small by exact Hn.
  destruct (Byte.of_N n) as [b|] eqn:E.
  - now apply Byte.to_of_N.
  - apply Byte.of_N_None_iff in E. lia.
Qed.

Lemma to_N_lt_256 (b : byte) : (Byte.to_N b < 256)%N.
Proof. pose proof (Byte.to_N_bounded b). lia. Qed.

Lemma byte_of_to_N (b : byte) : byte_of_N (Byte.to_N b) = b.
Proof.
  unfold byte_of_N.
  rewrite N.mod_small by apply to_N_lt_256.
  now rewrite Byte.of_to_N.
Qed.

Lemma py_encode_ascii (s : pystr) :
  Forall (fun c => (c < 128)%N) s -> py_encode s = Ok (ascii_bytes s).
Proof.
  induction 1 as [|c s Hc _ IH]; [reflexivity|].
  simpl. unfold encode_cp.
  apply N.ltb_lt in Hc. rewrite Hc, IH. reflexivity.
Qed.

Lemma py_decode_ascii (s : pystr) :
  Forall (fun c => (c < 128)%N) s -> py_decode (ascii_bytes s) = Ok s.
Proof.
  induction 1 as [|c s Hc _ IH]; [reflexivity|].
  simpl. rewrite byte_of_N_to_N by lia.
  apply N.ltb_lt in Hc. rewrite Hc, IH. reflexivity.
Qed.

Lemma hex_digit_ascii (d : N) : (d < 16)%N -> (hex_digit d < 128)%N.
Proof.
  intros Hd. unfold hex_digit. destruct (d <? 10)%N; lia.
Qed.

Lemma to_hex_ascii (b : bytes) : Forall (fun c => (c < 128)%N) (to_hex b).
Proof.
  induction b as [|x b IH]; simpl; [constructor|].
  pose proof (to_N_lt_256 x) as Hx.
  repeat constructor; try assumption; apply hex_digit_ascii.
  - apply N.Div0.div_lt_upper_bound. lia.
  - apply N.mod_lt. lia.
Qed.

Lemma hex_value_digit (d : N) : (d < 16)%N -> hex_value (hex_digit d) = Some d.
Proof.
  intros Hd. unfold hex_digit, hex_value.
  destruct (d <? 10)%N eqn:E.
  - apply N.ltb_lt in E.
    replace ((48 <=? 48 + d) && (48 + d <=? 57))%N with true.
    + f_equal. lia.
    + symmetry. apply andb_true_iff. split; apply N.leb_le; lia.
  - apply N.ltb_ge in E.
    replace ((48 <=? 87 + d) && (87 + d <=? 57))%N with false.
    + replace ((97 <=? 87 + d) && (87 + d <=? 102))%N with true.
      * f_equal. lia.
      * symmetry. apply andb_true_iff. split; apply N.leb_le; lia.
    + symmetry. apply andb_false_iff. right. apply N.leb_gt. lia.
Qed.

Lemma from_hex_to_hex (b : bytes) : from_hex (to_hex b) = Some b.
Proof.
  induction b as [|x b IH]; [reflexivity|].
  cbn [to_hex flat_map app from_hex]. fold (to_hex b).
  pose proof (to_N_lt_256 x) as Hx.
  rewrite !hex_value_digit, IH.
  - rewrite <- N.div_mod by lia. now rewrite byte_of_to_N.
  - apply N.mod_lt. lia.
  - apply N.Div0.div_lt_upper_bound. lia.
Qed.

(** ** Flattening a dict *)

(** The tuple tested on lines 50 and 76 is never empty, so the [raise]
    under it is never reached. *)
Lemma tuple_truth_cons (b : bool) (t : list bool) :
  negb (tuple_truth (b :: t)) = false.
Proof. reflexivity. Qed.

(** A dict is always flattened: [_convert_dict_to_string] raises on a
    non-dict argument only. *)
Lemma convert_dict_total : forall v,
  isinstance v Tdict = true -> exists s, _convert_dict_to_string v = Ok s.
Proof.
  induction v as [a|items IH] using pyval_nested_ind; intros Hv.
  - destruct a; discriminate.
  - clear Hv. cbn [_convert_dict_to_string].
    generalize (@nil N). induction IH as [|[key val] rest Hval _ IHrest].
    + intros acc. now exists acc.
    + intros acc. rewrite tuple_truth_cons. destruct val as [a|d].
      * apply IHrest.
      * destruct (Hval eq_refl) as [s Hs]. cbn [snd] in Hs.
        rewrite Hs. apply IHrest.
Qed.

(** C5: the flattening is not injective: the two distinct dicts
    [{'ab': 'c'}] and [{'a': 'bc'}], with [str] keys and values, both
    flatten to ['abc']. *)
Theorem convert_dict_to_string_not_injective :
  exists d1 d2 : list (atom * pyval),
    d1 <> d2 /\ str_items d1 = true /\ str_items d2 = true /\
    _convert_dict_to_string (VDict d1) = Ok (lit "abc") /\
    _convert_dict_to_string (VDict d2) = Ok (lit "abc").
Proof.
  exists [(AStr (lit "ab"), VStr (lit "c"))],
         [(AStr (lit "a"), VStr (lit "bc"))].
  split; [discriminate|]. repeat split.
Qed.

(** C9: when the value under a key is itself a dict, the key is dropped:
    [{k1: d}] and [{k2: d}] flatten to the same result, for every dict [d]
    and all keys [k1], [k2]. *)
Theorem convert_dict_to_string_drops_outer_key :
  forall (d : list (atom * pyval)) (k1 k2 : atom),
    _convert_dict_to_string (VDict [(k1, VDict d)])
    = _convert_dict_to_string (VDict [(k2, VDict d)]).
Proof.
  intros d k1 k2.
  cbn [_convert_dict_to_string]. rewrite !tuple_truth_cons. reflexivity.
Qed.

(** What both sides of C9 are: the flattening of the inner dict. *)
Lemma convert_dict_nested (d : list (atom * pyval)) (k : atom) :
  _convert_dict_to_string (VDict [(k, VDict d)])
  = _convert_dict_to_string (VDict d).
Proof.
  destruct (convert_dict_total (VDict d) eq_refl) as [s Hs].
  cbn [_convert_dict_to_string] in *. rewrite tuple_truth_cons.
  rewrite Hs. reflexivity.
Qed.

(** ** Methods of [MerkleTree], over any inherited class *)

Section MethodTheorems.
Context {B : Type} `{MerkleTools B}.

(** C10: with a [secure] that is not a [bool], [__init__] raises
    [TypeError] and leaves the instance as it found it: [_secure] is not
    assigned and the inherited [__init__] has not run, whatever
    [hash_type] is. *)
Theorem init_rejects_non_bool_secure :
  forall (secure hash_type : pyval) (self : instance B),
    isinstance secure Tbool = false ->
    __init__ secure hash_type self = (Raise TypeError, self) /\
    new secure hash_type = Raise TypeError.
Proof.
  intros secure hash_type self Hs.
  assert (E : forall s, __init__ secure hash_type s = (Raise TypeError, s)).
  { intros s. unfold __init__. rewrite Hs. reflexivity. }
  split; [apply E|]. unfold new. rewrite E. reflexivity.
Qed.

(** With a [bool], [_secure] is assigned first and the inherited
    [__init__] decides the rest. *)
Lemma init_bool_secure (b : bool) (hash_type : pyval) :
  new (VBool b) hash_type
  = rbind (super_init hash_type)
      (fun b0 => Ok {| _secure := b; base := b0 |}).
Proof.
  unfold new, __init__. cbn. destruct (super_init hash_type); reflexivity.
Qed.

(** C6: on a byte string, [convert_value] returns the value itself when
    the tree is not secure, and, when it is, the hexadecimal digest of
    the value under the tree's hash function, as ASCII bytes
    ([hash_function(value).hexdigest().encode()]); the tree is not
    changed. *)
Theorem convert_value_bytes :
  forall (t : MerkleTree B) (value : bytes),
    convert_value (VBytes value) t
    = (Ok (if _secure t
           then VBytes (ascii_bytes
                          (hexdigest (hash_function (base t) value)))
           else VBytes value), t).
Proof.
  intros t value. unfold convert_value, bind, self_, lift, ret. cbn.
  destruct (_secure t); [|reflexivity].
  unfold hexdigest. rewrite py_encode_ascii by apply to_hex_ascii.
  reflexivity.
Qed.

(** C7: on a tree that is not ready, [get_merkle_root] is [make_tree]
    followed by the inherited root query: same result, same final
    state. *)
Theorem get_merkle_root_builds_first :
  forall t : MerkleTree B,
    is_ready (base t) = false ->
    get_merkle_root t = (make_tree ;;; super super_get_merkle_root) t.
Proof.
  intros t Hr. unfold get_merkle_root, bind at 1, self_.
  rewrite Hr. reflexivity.
Qed.

(** On a ready tree no build takes place. *)
Lemma get_merkle_root_ready (t : MerkleTree B) :
  is_ready (base t) = true ->
  get_merkle_root t = super super_get_merkle_root t.
Proof.
  intros Hr. unfold get_merkle_root, bind, self_, ret.
  rewrite Hr. reflexivity.
Qed.

(** C2: the type check of [put] lets every value through.  A value that
    is not [bytes], [str] or [dict] is handed to the inherited
    [add_leaf] as it is, and [put] returns or raises as [add_leaf]
    does. *)
Theorem put_hands_any_value_to_add_leaf :
  forall (value : pyval) (t : MerkleTree B),
    isinstance value Tbytes = false ->
    isinstance value Tstr = false ->
    isinstance value Tdict = false ->
    put value t
    = (super (add_leaf value (_secure t)) ;;; ret tt) t.
Proof.
  intros value t _ _ Hd. unfold put.
  rewrite tuple_truth_cons, Hd. reflexivity.
Qed.

(** [put] itself raises for no value that is not a dict. *)
Lemma put_not_dict (value : pyval) (t : MerkleTree B) :
  isinstance value Tdict = false ->
  put value t = (super (add_leaf value (_secure t)) ;;; ret tt) t.
Proof.
  intros Hd. unfold put. rewrite tuple_truth_cons, Hd. reflexivity.
Qed.

End MethodTheorems.

(** ** Proofs of exclusion *)

(** Called on an instance without further arguments,
    [get_proof_of_exclusion] raises [NotImplementedError]. *)
Lemma get_proof_of_exclusion_raises {X R : Type} (self : X) :
  call_method (@get_proof_of_exclusion X R) self []
  = Raise NotImplementedError.
Proof. reflexivity. Qed.

(** Called through the class without arguments,
    [verify_proof_of_exclusion] raises [NotImplementedError]. *)
Lemma verify_proof_of_exclusion_unbound {X R : Type} :
  call_function (@verify_proof_of_exclusion X R) []
  = Raise NotImplementedError.
Proof. reflexivity. Qed.

(** C3: [verify_proof_of_exclusion] is defined without [self]: called on
    an instance, with any arguments, the call raises [TypeError] and the
    [raise NotImplementedError] of its body is not reached. *)
Theorem verify_proof_of_exclusion_on_instance :
  forall (X R : Type) (self : X) (args : list X),
    call_method (@verify_proof_of_exclusion X R) self args = Raise TypeError.
Proof. reflexivity. Qed.

(** X20: neither [get_proof_of_exclusion] nor [verify_proof_of_exclusion]
    ever returns a result, however and with whatever arguments it is
    called: every call raises. *)
Lemma exclusion_never_returns {X R : Type} (args : list X) (r : R) :
  call_function (@get_proof_of_exclusion X R) args <> Ok r /\
  call_function (@verify_proof_of_exclusion X R) args <> Ok r.
Proof.
  unfold call_function. cbn.
  split.
  - destruct (Nat.eqb _ _); discriminate.
  - destruct (Nat.eqb _ _); discriminate.
Qed.

(** ** The tree of the specification: levels, paths, roots *)

Lemma list_pair_ind {A} (P : list A -> Prop) :
  P [] -> (forall x, P [x]) -> (forall x y l, P l -> P (x :: y :: l)) ->
  forall l, P l.
Proof.
  intros H0 H1 H2.
  assert (both : forall l, P l /\ forall x, P (x :: l)).
  { induction l as [|a l [IH1 IH2]]; split; auto. }
  intros l. apply both.
Qed.

Lemma lxor_1_even (k : nat) : Nat.lxor (2 * k) 1 = 2 * k + 1.
Proof.
  apply Nat.bits_inj. intros [|n]; rewrite Nat.lxor_spec.
  - rewrite Nat.testbit_even_0.
    rewrite Nat.add_comm. change 1 with (2 * 0 + 1) at 2.
    rewrite Nat.add_comm, Nat.testbit_odd_0. reflexivity.
  - rewrite Nat.testbit_even_succ, Nat.testbit_odd_succ by lia.
    change 1 with (2 * 0 + 1).
    rewrite Nat.testbit_odd_succ, Nat.bits_0 by lia.
    apply xorb_false_r.
Qed.

Lemma lxor_1_odd (k : nat) : Nat.lxor (2 * k + 1) 1 = 2 * k.
Proof.
  apply Nat.bits_inj. intros [|n]; rewrite Nat.lxor_spec.
  - rewrite Nat.testbit_odd_0, Nat.testbit_even_0. reflexivity.
  - rewrite Nat.testbit_even_succ, Nat.testbit_odd_succ by lia.
    change 1 with (2 * 0 + 1).
    rewrite Nat.testbit_odd_succ, Nat.bits_0 by lia.
    apply xorb_false_r.
Qed.

Lemma lxor_1_SS (j : nat) : Nat.lxor (S (S j)) 1 = S (S (Nat.lxor j 1)).
Proof.
  destruct (Nat.Even_or_Odd j) as [[k ->]|[k ->]].
  - replace (S (S (2 * k))) with (2 * (S k)) by lia.
    rewrite !lxor_1_even. lia.
  - replace (S (S (2 * k + 1))) with (2 * (S k) + 1) by lia.
    rewrite !lxor_1_odd. lia.
Qed.

Section TreeTheorems.
Variable H : bytes -> bytes.

Lemma next_level_length (level : list bytes) :
  length (Spec.next_level H level) = Nat.div2 (S (length level)).
Proof.
  induction level as [| x | x y l IH] using list_pair_ind;
    [reflexivity | reflexivity |].
  cbn [Spec.next_level length]. rewrite IH. reflexivity.
Qed.

Lemma next_level_index (level : list bytes) (i : nat) :
  i < length level -> i / 2 < length (Spec.next_level H level).
Proof.
  intros Hi. rewrite next_level_length, Nat.div2_div.
  apply Nat.Div0.div_lt_upper_bound.
  pose proof (Nat.div_mod_eq (S (length level)) 2) as E.
  pose proof (Nat.mod_upper_bound (S (length level)) 2). lia.
Qed.

Lemma next_level_shrinks (level : list bytes) :
  2 <= length level ->
  length (Spec.next_level H level) <= length level - 1.
Proof.
  intros Hl. rewrite next_level_length, Nat.div2_div.
  pose proof (Nat.div_mod_eq (S (length level)) 2) as E.
  pose proof (Nat.mod_upper_bound (S (length level)) 2). lia.
Qed.

(** One step of the verifier on the entry the generator gives for
    position [i] of a level lands on position [i / 2] of the next
    level. *)
Lemma fold_path_step (level : list bytes) :
  forall (i : nat) (rest : list (dict pystr pystr)),
    i < length level ->
    Spec.fold_path H (Spec.sibling_entry level i :: rest) (nth i level [])
    = Spec.fold_path H rest (nth (i / 2) (Spec.next_level H level) []).
Proof.
  induction level as [| x | x y l IH] using list_pair_ind;
    intros i rest Hi.
  - inversion Hi.
  - cbn in Hi. assert (i = 0) as -> by lia.
    cbn. unfold Spec.parse_node. rewrite from_hex_to_hex. reflexivity.
  - destruct i as [|[|j]].
    + cbn. unfold Spec.parse_node. rewrite from_hex_to_hex. reflexivity.
    + cbn. unfold Spec.parse_node. rewrite from_hex_to_hex. reflexivity.
    + cbn [length] in Hi.
      specialize (IH j rest ltac:(lia)).
      replace (S (S j) / 2) with (S (j / 2)).
      2:{ change (S (S j)) with (1 * 2 + j) at 1.
          rewrite Nat.add_comm, Nat.div_add by lia. lia. }
      cbn [Spec.next_level nth]. rewrite <- IH.
      unfold Spec.sibling_entry. rewrite lxor_1_SS.
      cbn [nth]. reflexivity.
Qed.

Lemma build_from_cons (fuel : nat) (level : list bytes) :
  exists upper, Spec.build_from H fuel level = level :: upper.
Proof.
  destruct level as [|x [|y l]]; destruct fuel; cbn; eauto.
Qed.

Lemma last_build_cons (level : list bytes) (fuel : nat) (l : list bytes) :
  last (level :: Spec.build_from H fuel l) []
  = last (Spec.build_from H fuel l) [].
Proof.
  destruct (build_from_cons fuel l) as [upper ->]. reflexivity.
Qed.

Lemma root_of_cons (level : list bytes) (fuel : nat) (l : list bytes) :
  Spec.root_of (level :: Spec.build_from H fuel l)
  = Spec.root_of (Spec.build_from H fuel l).
Proof.
  unfold Spec.root_of. now rewrite last_build_cons.
Qed.

Lemma gen_path_cons (level : list bytes) (fuel : nat) (l : list bytes)
    (i : nat) :
  Spec.gen_path (level :: Spec.build_from H fuel l) i
  = Spec.sibling_entry level i
    :: Spec.gen_path (Spec.build_from H fuel l) (i / 2).
Proof.
  destruct (build_from_cons fuel l) as [upper ->]. reflexivity.
Qed.

(** The generated path folds to the root: the fuel [build] gives is
    enough to reach a level of one node. *)
Lemma fold_path_build_from (fuel : nat) :
  forall (level : list bytes) (i : nat),
    i < length level -> length level <= S fuel ->
    Spec.fold_path H (Spec.gen_path (Spec.build_from H fuel level) i)
      (nth i level [])
    = Ok (Spec.root_of (Spec.build_from H fuel level)).
Proof.
  induction fuel as [|fuel IH]; intros level i Hi Hlen.
  - destruct level as [|x [|y l]]; cbn in Hi, Hlen; try lia.
    assert (i = 0) as -> by lia. reflexivity.
  - destruct level as [|x [|y l]]; cbn in Hi; try lia.
    + assert (i = 0) as -> by lia. reflexivity.
    + set (level := x :: y :: l) in *.
      change (Spec.build_from H (S fuel) level)
        with (level :: Spec.build_from H fuel (Spec.next_level H level)).
      rewrite root_of_cons, gen_path_cons.
      rewrite fold_path_step by exact Hi.
      apply IH.
      * now apply next_level_index.
      * pose proof (next_level_shrinks level). subst level.
        cbn [length] in *. lia.
Qed.

Lemma fold_path_build (lvs : list bytes) (i : nat) :
  i < length lvs ->
  Spec.fold_path H (Spec.gen_path (Spec.build H lvs) i) (nth i lvs [])
  = Ok (Spec.root_of (Spec.build H lvs)).
Proof.
  intros Hi. apply fold_path_build_from; [exact Hi | lia].
Qed.

(** The last level of a built tree holds one node. *)
Lemma build_from_root (fuel : nat) :
  forall level : list bytes,
    level <> [] -> length level <= S fuel ->
    exists r, last (Spec.build_from H fuel level) [] = [r].
Proof.
  induction fuel as [|fuel IH]; intros level Hne Hlen.
  - destruct level as [|x [|y l]]; cbn in Hlen; try lia; [easy|].
    exists x. reflexivity.
  - destruct level as [|x [|y l]]; [easy | exists x; reflexivity |].
    set (level := x :: y :: l) in *.
    change (Spec.build_from H (S fuel) level)
      with (level :: Spec.build_from H fuel (Spec.next_level H level)).
    rewrite last_build_cons.
    apply IH.
    + subst level. cbn. discriminate.
    + pose proof (next_level_shrinks level). subst level.
      cbn [length] in *. lia.
Qed.

End TreeTheorems.

(** ** Proof entries across [encode] and [decode] *)

Lemma convert_proof_encode (path : list (dict pystr pystr)) :
  Forall tagged path ->
  forall out,
    convert_proof py_encode path out = Ok (out ++ map encode_entry path).
Proof.
  induction 1 as [|e path (k & v & -> & Hk & Hv) _ IH]; intros out.
  - cbn. now rewrite app_nil_r.
  - cbn [convert_proof convert_items].
    rewrite (py_encode_ascii Hk), (py_encode_ascii Hv).
    cbn [rbind]. rewrite IH, <- app_assoc. reflexivity.
Qed.

Lemma convert_proof_decode (path : list (dict pystr pystr)) :
  Forall tagged path ->
  forall out,
    convert_proof py_decode (map encode_entry path) out = Ok (out ++ path).
Proof.
  induction 1 as [|e path (k & v & -> & Hk & Hv) _ IH]; intros out.
  - cbn. now rewrite app_nil_r.
  - cbn [map encode_entry convert_proof convert_items fst snd].
    rewrite (py_decode_ascii Hk), (py_decode_ascii Hv).
    cbn [rbind]. rewrite IH, <- app_assoc. reflexivity.
Qed.

Lemma sibling_entry_tagged (level : list bytes) (i : nat) :
  tagged (Spec.sibling_entry level i).
Proof.
  unfold Spec.sibling_entry, tagged.
  eexists _, _. split; [reflexivity|]. split; [|apply to_hex_ascii].
  destruct (_ <? _); repeat constructor.
Qed.

Lemma gen_path_tagged (levels : list (list bytes)) :
  forall i, Forall tagged (Spec.gen_path levels i).
Proof.
  induction levels as [|level [|upper rest] IH]; intros i;
    cbn [Spec.gen_path]; try constructor.
  - apply sibling_entry_tagged.
  - apply IH.
Qed.

(** ** The inherited operations on a tree with leaves *)

Lemma spec_make_tree_leaves (t : Spec.tools) :
  Spec.leaves t <> [] ->
  Spec.make_tree t
  = (Ok tt, {| Spec.hash_fn := Spec.hash_fn t;
               Spec.leaves := Spec.leaves t;
               Spec.ready := true |}).
Proof.
  intros Hne. unfold Spec.make_tree.
  destruct (Spec.leaves t) eqn:E; [easy|].
  unfold Spec.set_ready. rewrite E. reflexivity.
Qed.

Lemma spec_make_tree_empty (t : Spec.tools) :
  Spec.leaves t = [] -> Spec.make_tree t = (Raise EmptyTree, t).
Proof. intros E. unfold Spec.make_tree. rewrite E. reflexivity. Qed.

Lemma spec_root_ready (t : Spec.tools) :
  Spec.ready t = true -> Spec.leaves t <> [] ->
  Spec.get_merkle_root t
  = (Ok (to_hex (Spec.root_of (Spec.build (Spec.hash_fn t) (Spec.leaves t)))),
     t).
Proof.
  intros Hr Hne. unfold Spec.get_merkle_root, bind. rewrite Hr.
  destruct (Spec.leaves t) eqn:E; [easy|]. reflexivity.
Qed.

Lemma spec_root_empty (t : Spec.tools) :
  Spec.leaves t = [] -> Spec.get_merkle_root t = (Raise EmptyTree, t).
Proof.
  intros E. unfold Spec.get_merkle_root, bind.
  destruct (Spec.ready t).
  - rewrite E. reflexivity.
  - rewrite spec_make_tree_empty by exact E. reflexivity.
Qed.

Lemma spec_proof_ready (t : Spec.tools) (i : Z) :
  Spec.ready t = true -> Spec.in_range i t = true ->
  Spec.get_proof_of_inclusion i t
  = (Ok (Spec.gen_path (Spec.build (Spec.hash_fn t) (Spec.leaves t))
           (Z.to_nat i)), t).
Proof.
  intros Hr Hi. unfold Spec.get_proof_of_inclusion, bind.
  rewrite Hr, Hi. reflexivity.
Qed.

Lemma spec_get_leaf_in_range (t : Spec.tools) (i : Z) :
  Spec.in_range i t = true ->
  Spec.get_leaf i t = (Ok (to_hex (nth (Z.to_nat i) (Spec.leaves t) [])), t).
Proof. intros Hi. unfold Spec.get_leaf. rewrite Hi. reflexivity. Qed.

Lemma bytes_eqb_refl (b : bytes) : Spec.bytes_eqb b b = true.
Proof.
  unfold Spec.bytes_eqb. destruct (list_eq_dec _ b b); [reflexivity|easy].
Qed.

(** The verifier accepts the generated path with the leaf and the root of
    the same tree. *)
Lemma verify_path_generated (h : bytes -> bytes) (lvs : list bytes) (i : nat) :
  i < length lvs ->
  Spec.verify_path h (Spec.gen_path (Spec.build h lvs) i)
    (to_hex (nth i lvs [])) (to_hex (Spec.root_of (Spec.build h lvs)))
  = Ok true.
Proof.
  intros Hi. unfold Spec.verify_path, Spec.parse_node.
  rewrite !from_hex_to_hex. cbn [rbind].
  rewrite fold_path_build by exact Hi. cbn [rbind].
  now rewrite bytes_eqb_refl.
Qed.

(** ** [MerkleTree] over the inherited class of the specification *)

Section SpecTheorems.
Context `{Hashlib}.

Local Abbreviation tree := (MerkleTree Spec.tools).

(** The root query of [MerkleTree] on a tree without leaves, ready or
    not. *)
Lemma root_query_no_leaves (t : tree) :
  Spec.leaves (base t) = [] -> get_merkle_root t = (Raise EmptyTree, t).
Proof.
  intros E. destruct t as [s b].
  unfold get_merkle_root, bind, self_, make_tree, super, ret.
  cbn in *.
  destruct (Spec.ready b) eqn:Hr; cbn.
  - rewrite spec_root_empty by exact E. reflexivity.
  - rewrite spec_make_tree_empty by exact E. reflexivity.
Qed.

(** C8: on a tree that holds no leaves, [get_merkle_root] raises
    [EmptyTree]; it returns no root and leaves the tree as it was. *)
Theorem get_merkle_root_empty_tree :
  forall t : tree,
    Spec.leaves (base t) = [] ->
    get_merkle_root t = (Raise EmptyTree, t).
Proof. exact root_query_no_leaves. Qed.

(** A tree just constructed holds no leaves. *)
Lemma new_tree_no_leaves (secure hash_type : pyval) (t : tree) :
  new secure hash_type = Ok t -> Spec.leaves (base t) = [].
Proof.
  destruct secure as [[| b | | |]|]; try discriminate.
  rewrite init_bool_secure. cbn.
  destruct hash_type as [[| | | name |]|]; try discriminate.
  cbn. destruct (hashlib name); [|discriminate].
  intros [= <-]. reflexivity.
Qed.

Lemma get_merkle_root_new (secure hash_type : pyval) (t : tree) :
  new secure hash_type = Ok t ->
  get_merkle_root t = (Raise EmptyTree, t).
Proof.
  intros Hn. apply root_query_no_leaves. exact (new_tree_no_leaves _ _ Hn).
Qed.

Lemma get_merkle_root_after_reset (t : tree) :
  exists t', reset_tree t = (Ok tt, t') /\
             get_merkle_root t' = (Raise EmptyTree, t').
Proof.
  eexists. split; [reflexivity|].
  apply root_query_no_leaves. reflexivity.
Qed.

(** C4: the last node of an odd level is paired with a duplicate of
    itself: a level of pairs followed by one node [x] gives the combined
    pairs followed by [H(x ++ x)]; and a tree with the leaves [A, B, C],
    once built, has level 1 = [H(A ++ B), H(C ++ C)] and the root
    [H(H(A ++ B) ++ H(C ++ C))], which [get_merkle_root] returns in
    hexadecimal. *)
Theorem odd_level_pairs_last_with_itself :
  (forall (h : bytes -> bytes) (pairs : list (bytes * bytes)) (x : bytes),
      Spec.next_level h
        (flat_map (fun p => [fst p; snd p]) pairs ++ [x])
      = map (fun p => h (fst p ++ snd p)) pairs ++ [h (x ++ x)]) /\
  (forall (s r : bool) (h : bytes -> bytes) (A B C : bytes),
      let t : tree :=
        {| _secure := s;
           base := {| Spec.hash_fn := h; Spec.leaves := [A; B; C];
                      Spec.ready := r |} |} in
      let built : tree :=
        {| _secure := s;
           base := {| Spec.hash_fn := h; Spec.leaves := [A; B; C];
                      Spec.ready := true |} |} in
      make_tree t = (Ok tt, built) /\
      Spec.build h (Spec.leaves (base built))
      = [[A; B; C];
         [h (A ++ B); h (C ++ C)];
         [h (h (A ++ B) ++ h (C ++ C))]] /\
      get_merkle_root built
      = (Ok (to_hex (h (h (A ++ B) ++ h (C ++ C)))), built)).
Proof.
  split.
  - intros h pairs x. induction pairs as [|[l r] pairs IH].
    + reflexivity.
    + cbn [flat_map map fst snd app Spec.next_level]. now rewrite IH.
  - intros s r h A B C t built. repeat split.
Qed.

(** Build, generate, verify: the three calls on a tree with leaves. *)
Lemma generated_proof_accepted (t : tree) (i : Z) :
  Spec.leaves (base t) <> [] ->
  (0 <= i < Z.of_nat (length (Spec.leaves (base t))))%Z ->
  exists (t' : tree) (p : InclusionProof),
    make_tree t = (Ok tt, t') /\
    get_proof_of_inclusion (VInt i) t' = (Ok p, t') /\
    verify_proof_of_inclusion (OProof p) t' = (Ok true, t').
Proof.
  revert t i.
  intros [s [h lvs r]] i Hne Hi. cbn [base Spec.leaves] in Hne, Hi.
  set (b := {| Spec.hash_fn := h; Spec.leaves := lvs; Spec.ready := true |}).
  assert (Hrange : Spec.in_range i b = true).
  { unfold Spec.in_range. cbn [Spec.leaves b].
    apply andb_true_iff. split; [apply Z.leb_le | apply Z.ltb_lt]; lia. }
  assert (Hnat : Z.to_nat i < length lvs) by lia.
  set (path := Spec.gen_path (Spec.build h lvs) (Z.to_nat i)).
  pose proof (gen_path_tagged (Spec.build h lvs) (Z.to_nat i)) as Htag.
  fold path in Htag.
  exists {| _secure := s; base := b |}.
  exists {| target := ascii_bytes (to_hex (nth (Z.to_nat i) lvs []));
            trie_root :=
              ascii_bytes (to_hex (Spec.root_of (Spec.build h lvs)));
            proof := map encode_entry path;
            type := lit "MT POI" |}.
  split; [|split].
  - unfold make_tree, super. cbn [base super_make_tree spec_tools].
    rewrite spec_make_tree_leaves by exact Hne. reflexivity.
  - unfold get_proof_of_inclusion, get_merkle_root, bind, super, self_,
      lift, ret.
    cbn [isinstance type_of negb int_value base _secure get_leaf
         super_get_proof_of_inclusion super_get_merkle_root is_ready
         spec_tools].
    rewrite spec_get_leaf_in_range by exact Hrange.
    rewrite spec_proof_ready by (exact Hrange || reflexivity).
    cbn [Spec.hash_fn Spec.leaves Spec.ready b]. fold path. fold b.
    rewrite (convert_proof_encode Htag).
    rewrite (py_encode_ascii (to_hex_ascii _)).
    cbn [negb base _secure]. change (Spec.ready b) with true.
    cbn [negb base _secure].
    rewrite spec_root_ready by (exact Hne || reflexivity).
    cbn [Spec.hash_fn Spec.leaves b].
    rewrite (py_encode_ascii (to_hex_ascii _)). reflexivity.
  - unfold verify_proof_of_inclusion, bind, super, lift.
    cbn [proof target trie_root].
    rewrite (convert_proof_decode Htag).
    rewrite !(py_decode_ascii (to_hex_ascii _)).
    cbn [base super_verify_proof_of_inclusion spec_tools app].
    unfold Spec.verify_proof_of_inclusion. cbn [Spec.hash_fn b].
    unfold path. rewrite verify_path_generated by exact Hnat.
    reflexivity.
Qed.

(** C1: on a tree with leaves, once [make_tree] has run, the proof
    [get_proof_of_inclusion] returns for a valid index is accepted by
    [verify_proof_of_inclusion]: it returns [True]. *)
Theorem inclusion_proof_verifies :
  forall (t : tree) (i : Z),
    Spec.leaves (base t) <> [] ->
    (0 <= i < Z.of_nat (length (Spec.leaves (base t))))%Z ->
    exists (t' : tree) (p : InclusionProof),
      make_tree t = (Ok tt, t') /\
      get_proof_of_inclusion (VInt i) t' = (Ok p, t') /\
      verify_proof_of_inclusion (OProof p) t' = (Ok true, t').
Proof. exact generated_proof_accepted. Qed.

(** What [put_list] stores for byte strings: each value, or its digest on
    a secure tree, in order, after the leaves already there. *)
Lemma put_list_bytes (values : list bytes) :
  forall (s : bool) (h : bytes -> bytes) (lvs : list bytes),
    put_list (map (fun b => VBytes b) values)
      {| _secure := s;
         base := {| Spec.hash_fn := h; Spec.leaves := lvs;
                    Spec.ready := false |} |}
    = (Ok tt,
       {| _secure := s;
          base := {| Spec.hash_fn := h;
                     Spec.leaves :=
                       lvs ++ map (fun b => if s then h b else b) values;
                     Spec.ready := false |} |}).
Proof.
  induction values as [|v values IH]; intros s h lvs.
  - cbn. now rewrite app_nil_r.
  - cbn [map put_list]. unfold bind at 1.
    rewrite put_not_dict by reflexivity.
    unfold bind at 1, super, ret.
    cbn [base _secure add_leaf spec_tools Spec.add_leaf Spec.hash_fn
         Spec.leaves].
    rewrite IH, <- app_assoc. reflexivity.
Qed.

(** From construction to verification: byte strings put into a new tree,
    the tree built, a proof generated for a valid index and verified. *)
Corollary put_build_prove_verify (secure : bool) (hash_type : pyval)
    (values : list bytes) (i : Z) (t0 : tree) :
  new (VBool secure) hash_type = Ok t0 ->
  values <> [] ->
  (0 <= i < Z.of_nat (length values))%Z ->
  exists (t1 t2 : tree) (p : InclusionProof),
    put_list (map (fun b => VBytes b) values) t0 = (Ok tt, t1) /\
    make_tree t1 = (Ok tt, t2) /\
    get_proof_of_inclusion (VInt i) t2 = (Ok p, t2) /\
    verify_proof_of_inclusion (OProof p) t2 = (Ok true, t2).
Proof.
  intros Hnew Hne Hi.
  rewrite init_bool_secure in Hnew. cbn in Hnew.
  destruct hash_type as [[| | | name |]|]; try discriminate.
  cbn in Hnew. destruct (hashlib name) as [h|]; [|discriminate].
  injection Hnew as <-.
  rewrite put_list_bytes. cbn [app].
  set (t1 := {| _secure := secure; base := _ |}).
  destruct (@generated_proof_accepted t1 i) as (t2 & p & Hm & Hg & Hv).
  - subst t1. cbn. destruct values; [easy | discriminate].
  - subst t1. cbn. now rewrite length_map.
  - exists t1, t2, p. auto.
Qed.

(** On the inherited class of the specification the implicit build is
    also the explicit one followed by the same query. *)
Lemma get_merkle_root_after_make_tree (t : tree) :
  Spec.ready (base t) = false ->
  get_merkle_root t = (make_tree ;;; get_merkle_root) t.
Proof.
  destruct t as [s [h lvs r]]. cbn. intros ->.
  destruct lvs; reflexivity.
Qed.

End SpecTheorems.

(** ** The theorems at concrete trees

    [three_leaves] holds the leaves [01], [6162], [03] and is not built;
    [fresh_tree] holds none.  Both use the stand-in algorithm table. *)

Example new_fresh_tree :
  new (H := toy_tools) (VBool true) (VStr (lit "poly16")) = Ok fresh_tree.
Proof. reflexivity. Qed.

Example new_unknown_algorithm :
  new (H := toy_tools) (VBool true) (VStr (lit "sha256"))
  = Raise UnsupportedAlgorithm.
Proof. reflexivity. Qed.

Example put_three_leaves :
  snd ((put (H := toy_tools) (VBytes [x01]) ;;;
        put (H := toy_tools) (VDict [(AStr (lit "a"), VStr (lit "b"))]) ;;;
        put (H := toy_tools) (VBytes [x03]))
         {| _secure := false; base := empty_tools |})
  = three_leaves.
Proof. reflexivity. Qed.

Example three_leaves_root :
  fst (get_merkle_root (H := toy_tools) three_leaves)
  = Ok (lit "7a8e").
Proof. reflexivity. Qed.

Example three_leaves_proof_2 :
  fst ((make_tree (H := toy_tools) ;;;
        get_proof_of_inclusion (H := toy_tools) (VInt 2)) three_leaves)
  = Ok {| target := ascii_bytes (lit "03");
          trie_root := ascii_bytes (lit "7a8e");
          proof := [[(ascii_bytes (lit "right"), ascii_bytes (lit "03"))];
                    [(ascii_bytes (lit "left"), ascii_bytes (lit "425c"))]];
          type := lit "MT POI" |}.
Proof. reflexivity. Qed.

Example three_leaves_tampered_root :
  fst (verify_proof_of_inclusion (H := toy_tools)
         (OProof {| target := ascii_bytes (lit "03");
                    trie_root := ascii_bytes (lit "7a8f");
                    proof := [[(ascii_bytes (lit "right"),
                                ascii_bytes (lit "03"))];
                              [(ascii_bytes (lit "left"),
                                ascii_bytes (lit "425c"))]];
                    type := lit "MT POI" |}) three_leaves)
  = Ok false.
Proof. reflexivity. Qed.

Example proof_index_out_of_range :
  fst ((make_tree (H := toy_tools) ;;;
        get_proof_of_inclusion (H := toy_tools) (VInt 3)) three_leaves)
  = Raise IndexOutOfRange.
Proof. reflexivity. Qed.

Lemma inclusion_proof_verifies_witness :
  Spec.leaves (base three_leaves) <> [] /\
  (0 <= 2 < Z.of_nat (length (Spec.leaves (base three_leaves))))%Z /\
  exists (t' : MerkleTree Spec.tools) (p : InclusionProof),
    make_tree (H := toy_tools) three_leaves = (Ok tt, t') /\
    get_proof_of_inclusion (H := toy_tools) (VInt 2) t' = (Ok p, t') /\
    verify_proof_of_inclusion (H := toy_tools) (OProof p) t' = (Ok true, t').
Proof.
  split; [discriminate|]. split; [cbn; lia|].
  apply (@inclusion_proof_verifies toy_hashlib three_leaves 2);
    [discriminate | cbn; lia].
Defined.

Lemma put_hands_any_value_to_add_leaf_witness :
  isinstance (VInt 5) Tbytes = false /\
  isinstance (VInt 5) Tstr = false /\
  isinstance (VInt 5) Tdict = false /\
  put (H := toy_tools) (VInt 5) fresh_tree
  = (super (add_leaf (MerkleTools := toy_tools) (VInt 5) (_secure fresh_tree)) ;;;
     ret tt) fresh_tree.
Proof.
  split; [reflexivity|]. split; [reflexivity|]. split; [reflexivity|].
  apply (@put_hands_any_value_to_add_leaf Spec.tools toy_tools
           (VInt 5) fresh_tree); reflexivity.
Defined.

Lemma get_merkle_root_builds_first_witness :
  is_ready (MerkleTools := toy_tools) (base three_leaves) = false /\
  get_merkle_root (H := toy_tools) three_leaves
  = (make_tree (H := toy_tools) ;;;
     super (super_get_merkle_root (MerkleTools := toy_tools))) three_leaves.
Proof.
  split; [reflexivity|].
  apply (@get_merkle_root_builds_first Spec.tools toy_tools three_leaves).
  reflexivity.
Defined.

Lemma get_merkle_root_empty_tree_witness :
  Spec.leaves (base fresh_tree) = [] /\
  get_merkle_root (H := toy_tools) fresh_tree = (Raise EmptyTree, fresh_tree).
Proof.
  split; [reflexivity|].
  apply (@get_merkle_root_empty_tree toy_hashlib fresh_tree). reflexivity.
Defined.

Lemma init_rejects_non_bool_secure_witness :
  isinstance (VInt 1) Tbool = false /\
  __init__ (H := toy_tools) (VInt 1) (VStr (lit "poly16")) blank
  = (Raise TypeError, blank) /\
  new (H := toy_tools) (VInt 1) (VStr (lit "poly16")) = Raise TypeError.
Proof.
  split; [reflexivity|].
  apply (@init_rejects_non_bool_secure Spec.tools toy_tools
           (VInt 1) (VStr (lit "poly16")) blank).
  reflexivity.
Defined.

(** * Further properties of [mt.py] *)

(** ** [_convert_dict_to_string]: what the flattening is *)

Lemma convert_dict_loop (items : list (atom * pyval)) :
  _convert_dict_to_string (VDict items) = dict_loop items [].
Proof. reflexivity. Qed.

Lemma dict_loop_total (items : list (atom * pyval)) :
  forall acc, exists s, dict_loop items acc = Ok s.
Proof.
  induction items as [|[key val] rest IH]; intros acc.
  - now exists acc.
  - cbn [dict_loop]. rewrite tuple_truth_cons. destruct val as [a|d].
    + apply IH.
    + destruct (convert_dict_total (VDict d) eq_refl) as [s ->]. apply IH.
Qed.

(** The accumulator is a prefix of the result. *)
Lemma dict_loop_acc (items : list (atom * pyval)) :
  forall acc,
    dict_loop items acc
    = rbind (dict_loop items []) (fun s => Ok (acc ++ s)).
Proof.
  induction items as [|[key val] rest IH]; intros acc.
  - cbn. now rewrite app_nil_r.
  - cbn [dict_loop]. rewrite tuple_truth_cons. destruct val as [a|d].
    + rewrite IH, (IH ([] ++ _)). cbn [app].
      destruct (dict_loop rest []) as [s|e]; cbn [rbind]; [|reflexivity].
      now rewrite <- !app_assoc.
    + destruct (_convert_dict_to_string (VDict d)) as [sd|e];
        cbn [rbind]; [|reflexivity].
      rewrite IH, (IH ([] ++ _)). cbn [app].
      destruct (dict_loop rest []) as [s|e]; cbn [rbind]; [|reflexivity].
      now rewrite <- !app_assoc.
Qed.

Lemma dict_loop_app (d1 d2 : list (atom * pyval)) :
  forall acc,
    dict_loop (d1 ++ d2) acc = rbind (dict_loop d1 acc) (dict_loop d2).
Proof.
  induction d1 as [|[key val] rest IH]; intros acc.
  - reflexivity.
  - cbn [app dict_loop]. rewrite tuple_truth_cons. destruct val as [a|d].
    + apply IH.
    + destruct (_convert_dict_to_string (VDict d)); cbn [rbind];
        [apply IH | reflexivity].
Qed.


(** X2: flattening goes item by item with nothing in between: a dict
    whose items are those of [d1] followed by those of [d2] flattens to the
    flattening of [d1] followed by that of [d2]. *)
Theorem convert_dict_app :
  forall d1 d2 : list (atom * pyval),
    _convert_dict_to_string (VDict (d1 ++ d2))
    = rbind (_convert_dict_to_string (VDict d1)) (fun s1 =>
      rbind (_convert_dict_to_string (VDict d2)) (fun s2 =>
      Ok (s1 ++ s2))).
Proof.
  intros d1 d2. rewrite !convert_dict_loop, dict_loop_app.
  destruct (dict_loop d1 []) as [s1|e]; cbn [rbind]; [|reflexivity].
  apply dict_loop_acc.
Qed.



(** ** Methods of [MerkleTree], over any inherited class *)

Section MoreMethodTheorems.
Context {B : Type} `{MerkleTools B}.

Local Abbreviation tree := (MerkleTree B).

Lemma keeps_secure_ret {A} (a : A) : keeps_secure (ret (S := tree) a).
Proof. intros t. reflexivity. Qed.

Lemma keeps_secure_raise {A} (e : exn) :
  keeps_secure (raise (S := tree) (A := A) e).
Proof. intros t. reflexivity. Qed.

Lemma keeps_secure_lift {A} (r : result A) : keeps_secure (lift (S := tree) r).
Proof. intros t. reflexivity. Qed.

Lemma keeps_secure_self : keeps_secure (@self_ B).
Proof. intros t. reflexivity. Qed.

Lemma keeps_secure_super {A} (c : M B A) : keeps_secure (super c).
Proof. intros t. unfold super. destruct (c (base t)). reflexivity. Qed.

Lemma keeps_secure_bind {A C} (c : M tree A) (k : A -> M tree C) :
  keeps_secure c -> (forall a, keeps_secure (k a)) ->
  keeps_secure (bind c k).
Proof.
  intros Hc Hk t. unfold bind. specialize (Hc t).
  destruct (c t) as [[a|e] t1]; cbn [snd] in *.
  - now rewrite Hk.
  - exact Hc.
Qed.

Create HintDb secure.

#[local] Hint Resolve keeps_secure_ret keeps_secure_raise keeps_secure_lift
  keeps_secure_self keeps_secure_super : secure.

Ltac keeps :=
  repeat first
    [ apply keeps_secure_bind; [|intros ?]
    | match goal with
      | |- keeps_secure (if ?b then _ else _) => destruct b
      | |- keeps_secure (match ?x with _ => _ end) => destruct x
      end
    | solve [auto with secure] ].

Lemma keeps_secure_put (value : pyval) : keeps_secure (put value).
Proof. unfold put. keeps. Qed.

Lemma keeps_secure_get_merkle_root : keeps_secure get_merkle_root.
Proof. unfold get_merkle_root, make_tree. keeps. Qed.



(** X7: [put_list] on a list in two parts is [put_list] on the first part
    followed by [put_list] on the second: the values are put in order, and
    when one raises the values before it have been put and those after it
    have not. *)
Theorem put_list_app :
  forall (xs ys : list pyval) (t : tree),
    put_list (xs ++ ys) t = (put_list xs ;;; put_list ys) t.
Proof.
  induction xs as [|x xs IH]; intros ys t.
  - reflexivity.
  - cbn [app put_list]. unfold bind.
    destruct (put x t) as [[u|e] t1]; [|reflexivity].
    rewrite IH. reflexivity.
Qed.

(** X8: [convert_value] only reads the tree: whatever it is given and
    whether it returns or raises, the tree is left as it was. *)
Theorem convert_value_leaves_tree :
  forall (value : pyval) (t : tree), snd (convert_value value t) = t.
Proof.
  intros value t. unfold convert_value, bind, self_, lift, ret.
  destruct (negb _); [reflexivity|].
  destruct (_secure t); reflexivity.
Qed.

(** X9: unlike [put], [convert_value] does reject a value that is not
    [bytes], [str] or [dict]: it raises [TypeError]. *)
Theorem convert_value_rejects_other_types :
  forall (value : pyval) (t : tree),
    isinstance value Tbytes = false ->
    isinstance value Tstr = false ->
    isinstance value Tdict = false ->
    convert_value value t = (Raise TypeError, t).
Proof.
  intros value t Hb Hs Hd. unfold convert_value.
  rewrite Hb, Hs, Hd. reflexivity.
Qed.

(** X10: on a tree that is not secure, [convert_value] returns a
    [bytes], [str] or [dict] value as it is; a dict is not flattened,
    though [put] stores its flattening. *)
Theorem convert_value_not_secure :
  forall (value : pyval) (t : tree),
    _secure t = false ->
    isinstance value Tbytes || isinstance value Tstr
    || isinstance value Tdict = true ->
    convert_value value t = (Ok value, t).
Proof.
  intros value t Hsec Hty. unfold convert_value, bind, self_.
  rewrite Hty. cbn [negb]. rewrite Hsec. reflexivity.
Qed.

(** X11: an index that is not an [int] is rejected by [get] and by
    [get_proof_of_inclusion] with [TypeError] before the inherited class is
    asked anything: the tree is left as it was. *)
Theorem index_must_be_int :
  forall (index : pyval) (t : tree),
    isinstance index Tint = false ->
    get index t = (Raise TypeError, t) /\
    get_proof_of_inclusion index t = (Raise TypeError, t).
Proof.
  intros index t Hi. unfold get, get_proof_of_inclusion.
  rewrite Hi. split; reflexivity.
Qed.

End MoreMethodTheorems.

(** ** The codec: decoding what was encoded *)

Lemma lor_disjoint (x y k : N) :
  (y < 2 ^ k -> N.lor (x * 2 ^ k) y = x * 2 ^ k + y)%N.
Proof.
  intros Hy.
  assert (Hz : N.land (x * 2 ^ k) y = 0%N).
  { apply N.bits_inj. intros n. rewrite N.land_spec, N.bits_0.
    destruct (N.lt_ge_cases n k) as [Hn|Hn].
    - now rewrite N.mul_pow2_bits_low.
    - rewrite <- (N.mod_small y (2 ^ k)) by exact Hy.
      rewrite N.mod_pow2_bits_high by exact Hn. apply andb_false_r. }
  now rewrite <- N.lxor_lor, <- N.add_nocarry_lxor.
Qed.

Lemma lor_64 (x y : N) : (y < 64 -> N.lor (x * 64) y = x * 64 + y)%N.
Proof. apply (@lor_disjoint x y 6). Qed.

Lemma lor_4096 (x y : N) : (y < 4096 -> N.lor (x * 4096) y = x * 4096 + y)%N.
Proof. apply (@lor_disjoint x y 12). Qed.

Lemma lor_262144 (x y : N) :
  (y < 262144 -> N.lor (x * 262144) y = x * 262144 + y)%N.
Proof. apply (@lor_disjoint x y 18). Qed.

(** Quotients and remainders by constants, named and bounded, for [lia]. *)
Ltac divmod_step a b :=
  let Hd := fresh "Hd" in
  let Hm := fresh "Hm" in
  pose proof (N.div_mod a b ltac:(discriminate)) as Hd;
  pose proof (N.mod_lt a b ltac:(discriminate)) as Hm;
  let q := fresh "q" in
  let r := fresh "r" in
  set (q := (a / b)%N) in *; set (r := (a mod b)%N) in *;
  clearbody q r.

Ltac divmod :=
  repeat match goal with
  | |- context [(?a mod ?b)%N] => divmod_step a b
  | |- context [(?a / ?b)%N] => divmod_step a b
  | H : context [(?a mod ?b)%N] |- _ => divmod_step a b
  | H : context [(?a / ?b)%N] |- _ => divmod_step a b
  end.

Ltac dlia := divmod; lia.

Ltac norm_pow :=
  repeat match goal with
  | |- context [(2 ^ ?k)%N] =>
      let v := eval vm_compute in (2 ^ k)%N in change (2 ^ k)%N with v
  end.

Ltac decide_cmp :=
  repeat match goal with
  | |- context [(?a <? ?b)%N] =>
      first [ rewrite (proj2 (N.ltb_lt a b)) by dlia
            | rewrite (proj2 (N.ltb_ge a b)) by dlia ]
  | |- context [(?a <=? ?b)%N] =>
      first [ rewrite (proj2 (N.leb_le a b)) by dlia
            | rewrite (proj2 (N.leb_gt a b)) by dlia ]
  end.

Ltac bits_to_arith :=
  repeat rewrite N.shiftr_div_pow2;
  repeat rewrite N.shiftl_mul_pow2;
  change 0x3F%N with (N.ones 6); change 0x1F%N with (N.ones 5);
  change 0x0F%N with (N.ones 4); change 0x07%N with (N.ones 3);
  repeat rewrite N.land_ones;
  change (2 ^ 3)%N with 8%N; change (2 ^ 4)%N with 16%N;
  change (2 ^ 5)%N with 32%N; change (2 ^ 6)%N with 64%N;
  change (2 ^ 12)%N with 4096%N; change (2 ^ 18)%N with 262144%N.

Lemma to_N_lor (m k x : N) :
  (x < 2 ^ k -> m * 2 ^ k + x < 256 ->
   Byte.to_N (byte_of_N (N.lor (m * 2 ^ k) x)) = m * 2 ^ k + x)%N.
Proof.
  intros Hx Hb. rewrite lor_disjoint by exact Hx.
  now apply byte_of_N_to_N.
Qed.

Lemma to_N_lead2 (x : N) :
  (x < 32 -> Byte.to_N (byte_of_N (N.lor 0xC0 x)) = 192 + x)%N.
Proof. intros. apply (@to_N_lor 3 6 x); norm_pow; lia. Qed.

Lemma to_N_lead3 (x : N) :
  (x < 16 -> Byte.to_N (byte_of_N (N.lor 0xE0 x)) = 224 + x)%N.
Proof. intros. apply (@to_N_lor 14 4 x); norm_pow; lia. Qed.

Lemma to_N_lead4 (x : N) :
  (x < 8 -> Byte.to_N (byte_of_N (N.lor 0xF0 x)) = 240 + x)%N.
Proof. intros. apply (@to_N_lor 30 3 x); norm_pow; lia. Qed.

Lemma to_N_cont (x : N) :
  (x < 64 -> Byte.to_N (byte_of_N (N.lor 0x80 x)) = 128 + x)%N.
Proof. intros. apply (@to_N_lor 2 6 x); norm_pow; lia. Qed.

Lemma some_inj {A} (a b : A) : Some a = Some b -> a = b.
Proof. congruence. Qed.

(** The bytes of one code point decode to that code point. *)
Lemma decode_encode_cp (c : N) (bs rest : bytes) :
  encode_cp c = Some bs ->
  py_decode (bs ++ rest) = rbind (py_decode rest) (fun out => Ok (c :: out)).
Proof.
  unfold encode_cp.
  destruct (c <? 0x80)%N eqn:E1.
  { intros Hbs; apply some_inj in Hbs; subst bs.
    apply N.ltb_lt in E1. cbn [app py_decode].
    rewrite byte_of_N_to_N by lia. decide_cmp. reflexivity. }
  apply N.ltb_ge in E1.
  destruct (c <? 0x800)%N eqn:E2.
  { intros Hbs; apply some_inj in Hbs; subst bs.
    apply N.ltb_lt in E2. cbn [app py_decode].
    unfold is_cont, cont_bits. bits_to_arith.
    rewrite to_N_lead2, to_N_cont by dlia.
    decide_cmp. cbn [andb].
    bits_to_arith.
    replace ((192 + c / 64) mod 32)%N with (c / 64)%N by dlia.
    replace ((128 + c mod 64) mod 64)%N with (c mod 64)%N by dlia.
    rewrite lor_64 by dlia.
    replace (c / 64 * 64 + c mod 64)%N with c by dlia.
    reflexivity. }
  apply N.ltb_ge in E2.
  destruct (c <? 0x10000)%N eqn:E3.
  { destruct (is_surrogate c) eqn:Es; [discriminate|].
    intros Hbs; apply some_inj in Hbs; subst bs. apply N.ltb_lt in E3.
    cbn [app py_decode].
    unfold is_cont, cont_bits. bits_to_arith.
    rewrite to_N_lead3, !to_N_cont by dlia.
    decide_cmp. cbn [andb].
    bits_to_arith.
    replace ((224 + c / 4096) mod 16)%N with (c / 4096)%N by dlia.
    replace ((128 + (c / 64) mod 64) mod 64)%N
      with ((c / 64) mod 64)%N by dlia.
    replace ((128 + c mod 64) mod 64)%N with (c mod 64)%N by dlia.
    rewrite lor_64 by dlia. rewrite lor_4096 by dlia.
    replace (c / 4096 * 4096 + (c / 64 mod 64 * 64 + c mod 64))%N
      with c by dlia.
    rewrite Es. decide_cmp. reflexivity. }
  apply N.ltb_ge in E3.
  destruct (c <? 0x110000)%N eqn:E4; [|discriminate].
  intros Hbs; apply some_inj in Hbs; subst bs. apply N.ltb_lt in E4.
  cbn [app py_decode].
  unfold is_cont, cont_bits. bits_to_arith.
  rewrite to_N_lead4, !to_N_cont by dlia.
  decide_cmp. cbn [andb].
  bits_to_arith.
  replace ((240 + c / 262144) mod 8)%N with (c / 262144)%N by dlia.
  replace ((128 + (c / 4096) mod 64) mod 64)%N
    with ((c / 4096) mod 64)%N by dlia.
  replace ((128 + (c / 64) mod 64) mod 64)%N
    with ((c / 64) mod 64)%N by dlia.
  replace ((128 + c mod 64) mod 64)%N with (c mod 64)%N by dlia.
  rewrite lor_64 by dlia. rewrite lor_4096 by dlia.
  rewrite lor_262144 by dlia.
  replace (c / 262144 * 262144
           + (c / 4096 mod 64 * 4096 + (c / 64 mod 64 * 64 + c mod 64)))%N
    with c by dlia.
  decide_cmp. reflexivity.
Qed.

(** [b.decode()] gives back the text [b] was encoded from. *)
Lemma py_decode_encode (s : pystr) :
  forall b, py_encode s = Ok b -> py_decode b = Ok s.
Proof.
  induction s as [|c s IH]; intros b.
  - intros Hb. cbn in Hb. injection Hb as <-. reflexivity.
  - cbn [py_encode]. destruct (encode_cp c) as [bs|] eqn:Ec; [|discriminate].
    destruct (py_encode s) as [out|e]; [|discriminate].
    cbn [rbind]. intros Hb. injection Hb as <-.
    rewrite (@decode_encode_cp c bs out Ec), (IH out eq_refl). reflexivity.
Qed.

Lemma py_encode_raises (s : pystr) (e : exn) :
  py_encode s = Raise e -> e = UnicodeEncodeError.
Proof.
  induction s as [|c s IH]; [discriminate|].
  cbn [py_encode]. destruct (encode_cp c); [|congruence].
  destruct (py_encode s); cbn [rbind]; [discriminate|].
  intros [= <-]. now apply IH.
Qed.

Lemma py_decode_raises_upto (n : nat) :
  forall (b : bytes) (e : exn),
    length b <= n -> py_decode b = Raise e -> e = UnicodeDecodeError.
Proof.
  induction n as [|n IH]; intros b e Hlen;
    (destruct b as [|b0 r0]; [discriminate|]); cbn [length] in Hlen;
    [lia|].
  cbn [py_decode]. cbv zeta.
  repeat match goal with
    | |- (if ?c then _ else _) = _ -> _ => destruct c
    | |- match ?l with [] => _ | _ :: _ => _ end = _ -> _ =>
        destruct l; cbn [length] in Hlen
    | |- rbind (py_decode ?r) _ = _ -> _ =>
        let E := fresh "E" in
        destruct (py_decode r) eqn:E; cbn [rbind]
    end;
    try discriminate;
    try (intros [= <-]; reflexivity);
    intros [= <-];
    match goal with
    | E : py_decode ?r = Raise _ |- _ => apply (IH r); [lia | exact E]
    end.
Qed.

(** [b.decode()] raises nothing but [UnicodeDecodeError]. *)
Lemma py_decode_raises (b : bytes) (e : exn) :
  py_decode b = Raise e -> e = UnicodeDecodeError.
Proof. apply (@py_decode_raises_upto (length b)). lia. Qed.

(** ** The loops over the proof list (lines 202-205 and 228-231) *)

Section LoopTheorems.
Context {X Y : Type} (f : X -> result Y).

Lemma convert_items_ok (items : dict X X) :
  forall out res,
    convert_items f items out = Ok res ->
    exists ys, res = out ++ ys /\ Forall2 (converted f) ys items.
Proof.
  induction items as [|[k v] rest IH]; intros out res.
  - cbn. intros [= <-]. exists []. now rewrite app_nil_r.
  - cbn [convert_items].
    destruct (f k) as [k'|] eqn:Ek; [|discriminate].
    destruct (f v) as [v'|] eqn:Ev; [|discriminate].
    cbn [rbind]. intros Hr. apply IH in Hr. destruct Hr as (ys & -> & Hys).
    exists ([(k', v')] :: ys). split.
    + now rewrite <- app_assoc.
    + constructor; [|exact Hys]. exists k', v'. auto.
Qed.

Lemma convert_proof_ok (proof : list (dict X X)) :
  forall out res,
    convert_proof f proof out = Ok res ->
    exists ys, res = out ++ ys /\ Forall2 (converted f) ys (concat proof).
Proof.
  induction proof as [|p rest IH]; intros out res.
  - cbn. intros [= <-]. exists []. now rewrite app_nil_r.
  - cbn [convert_proof concat].
    destruct (convert_items f p out) as [out1|] eqn:E1; [|discriminate].
    cbn [rbind]. intros Hr.
    apply convert_items_ok in E1. destruct E1 as (ys1 & -> & H1).
    apply IH in Hr. destruct Hr as (ys2 & -> & H2).
    exists (ys1 ++ ys2). split.
    + now rewrite app_assoc.
    + now apply Forall2_app.
Qed.

Lemma convert_items_raises (E : exn) (items : dict X X) :
  (forall x e, f x = Raise e -> e = E) ->
  forall out e, convert_items f items out = Raise e -> e = E.
Proof.
  intros Hf. induction items as [|[k v] rest IH]; intros out e.
  - discriminate.
  - cbn [convert_items].
    destruct (f k) eqn:Ek; cbn [rbind];
      [|intros [= <-]; exact (Hf _ _ Ek)].
    destruct (f v) eqn:Ev; cbn [rbind];
      [|intros [= <-]; exact (Hf _ _ Ev)].
    apply IH.
Qed.

Lemma convert_proof_raises (E : exn) (proof : list (dict X X)) :
  (forall x e, f x = Raise e -> e = E) ->
  forall out e, convert_proof f proof out = Raise e -> e = E.
Proof.
  intros Hf. induction proof as [|p rest IH]; intros out e.
  - discriminate.
  - cbn [convert_proof].
    destruct (convert_items f p out) eqn:E1; cbn [rbind].
    + apply IH.
    + intros [= <-]. exact (convert_items_raises _ Hf _ E1).
Qed.

(** X12: the loop of [get_proof_of_inclusion] (and of
    [verify_proof_of_inclusion]) gives one dict for each item of the dicts
    it walks, each with exactly one item; a dict with several items comes
    out as several dicts, an empty one as none. *)
Theorem convert_proof_one_item_each :
  forall (proof : list (dict X X)) (out : list (dict Y Y)),
    convert_proof f proof [] = Ok out ->
    Forall (fun d => length d = 1) out /\
    length out = length (concat proof).
Proof.
  intros proof out Hc.
  apply convert_proof_ok in Hc. destruct Hc as (ys & -> & Hys).
  cbn [app]. split.
  - induction Hys as [|y kv ys l (k' & v' & _ & _ & ->) _ IH];
      constructor; auto.
  - induction Hys; cbn [length]; congruence.
Qed.

End LoopTheorems.

Lemma single_items_concat {X : Type} (proof : list (dict X X)) :
  single_items proof = map (fun kv => [kv]) (concat proof).
Proof.
  unfold single_items. induction proof as [|p rest IH]; [reflexivity|].
  cbn [flat_map concat]. now rewrite map_app, IH.
Qed.

Lemma decode_converted (ys : list (dict bytes bytes))
    (l : list (pystr * pystr)) :
  Forall2 (converted py_encode) ys l ->
  forall out,
    convert_proof py_decode ys out = Ok (out ++ map (fun kv => [kv]) l).
Proof.
  induction 1 as [|y [k v] ys l (k' & v' & Hk & Hv & ->) _ IH]; intros out.
  - cbn. now rewrite app_nil_r.
  - cbn [fst snd] in Hk, Hv.
    cbn [convert_proof convert_items map].
    rewrite (py_decode_encode _ Hk), (py_decode_encode _ Hv).
    cbn [rbind]. rewrite IH, <- app_assoc. reflexivity.
Qed.

Lemma convert_proof_round_trip (proof : list (dict pystr pystr))
    (byte_proof : list (dict bytes bytes)) :
  convert_proof py_encode proof [] = Ok byte_proof ->
  convert_proof py_decode byte_proof [] = Ok (single_items proof).
Proof.
  intros Hc. apply convert_proof_ok in Hc. destruct Hc as (ys & -> & Hys).
  cbn [app]. rewrite (decode_converted Hys), single_items_concat.
  reflexivity.
Qed.

(** X13: what [verify_proof_of_inclusion] decodes is what
    [get_proof_of_inclusion] encoded: the decoding loop on the byte proof
    of a proof list returns the items of that list, one dict each, in
    order, with their text unchanged. *)
Theorem byte_proof_decodes_back :
  forall (proof : list (dict pystr pystr))
         (byte_proof : list (dict bytes bytes)),
    convert_proof py_encode proof [] = Ok byte_proof ->
    convert_proof py_decode byte_proof [] = Ok (single_items proof).
Proof. exact convert_proof_round_trip. Qed.

(** ** Leaves and proofs, over any inherited class *)

Section ProofMethodTheorems.
Context {B : Type} `{MerkleTools B}.

Local Abbreviation tree := (MerkleTree B).

(** What a call of [get_proof_of_inclusion] that returns has gone
    through. *)
Lemma get_proof_of_inclusion_ok (index : pyval) (t t' : tree)
    (p : InclusionProof) :
  get_proof_of_inclusion index t = (Ok p, t') ->
  exists key path root byte_proof t1 t2,
    super (get_leaf (int_value index)) t = (Ok key, t1) /\
    super (super_get_proof_of_inclusion (int_value index)) t1
    = (Ok path, t2) /\
    get_merkle_root t2 = (Ok root, t') /\
    convert_proof py_encode path [] = Ok byte_proof /\
    py_encode key = Ok (target p) /\
    py_encode root = Ok (trie_root p) /\
    proof p = byte_proof /\
    type p = lit "MT POI".
Proof.
  unfold get_proof_of_inclusion.
  destruct (negb (isinstance index Tint)); [discriminate|].
  unfold bind at 1.
  destruct (super (get_leaf (int_value index)) t) as [[key|e] t1] eqn:E1;
    [|discriminate].
  unfold bind at 1.
  destruct (super (super_get_proof_of_inclusion (int_value index)) t1)
    as [[path|e] t2] eqn:E2; [|discriminate].
  unfold bind at 1, lift at 1.
  destruct (convert_proof py_encode path []) as [byte_proof|e] eqn:E3;
    [|discriminate].
  unfold bind at 1, lift at 1.
  destruct (py_encode key) as [target_key_hash|e] eqn:E4; [|discriminate].
  unfold bind at 1.
  destruct (get_merkle_root t2) as [[root|e] t3] eqn:E5; [|discriminate].
  unfold bind at 1, lift at 1.
  destruct (py_encode root) as [root_hash|e] eqn:E6; [|discriminate].
  unfold ret. intros [= <- <-].
  exists key, path, root, byte_proof, t1, t2. cbn [target trie_root proof type].
  repeat split; assumption.
Qed.

(** X14: the target of the proof [get_proof_of_inclusion] returns for an
    index is what [get] returns for it on the same tree. *)
Theorem proof_target_is_get :
  forall (index : pyval) (t t' : tree) (p : InclusionProof),
    get_proof_of_inclusion index t = (Ok p, t') ->
    fst (get index t) = Ok (target p).
Proof.
  intros index t t' p Hg.
  assert (Hi : isinstance index Tint = true).
  { unfold get_proof_of_inclusion in Hg.
    destruct (isinstance index Tint); [reflexivity | discriminate]. }
  apply get_proof_of_inclusion_ok in Hg.
  destruct Hg as (key & path & root & bp & t1 & t2 & Hk & _ & _ & _ & Ht & _).
  unfold get, bind, lift. rewrite Hi. cbn [negb]. rewrite Hk, Ht.
  reflexivity.
Qed.

(** X15: verifying a proof that [get_proof_of_inclusion] returned hands
    the inherited verifier exactly what the inherited class gave: the
    items of its path (one dict each), the leaf text and the root text.
    Nothing is lost between [encode] and [decode], on whatever tree the
    proof is verified. *)
Theorem verify_generated_proof :
  forall (index : pyval) (t t' : tree) (p : InclusionProof),
    get_proof_of_inclusion index t = (Ok p, t') ->
    exists key path root t1 t2,
      super (get_leaf (int_value index)) t = (Ok key, t1) /\
      super (super_get_proof_of_inclusion (int_value index)) t1
      = (Ok path, t2) /\
      get_merkle_root t2 = (Ok root, t') /\
      forall u : tree,
        verify_proof_of_inclusion (OProof p) u
        = super (super_verify_proof_of_inclusion
                   (single_items path) key root) u.
Proof.
  intros index t t' p Hg. apply get_proof_of_inclusion_ok in Hg.
  destruct Hg as (key & path & root & bp & t1 & t2
                  & Hk & Hp & Hr & Hc & Ht & Hroot & Hbp & _).
  exists key, path, root, t1, t2. repeat split; try assumption.
  intros u. unfold verify_proof_of_inclusion, bind, lift.
  rewrite Hbp, (convert_proof_round_trip _ Hc).
  rewrite (py_decode_encode _ Ht), (py_decode_encode _ Hroot).
  reflexivity.
Qed.

(** X16: the bytes [get] returns decode to the leaf text the inherited
    [get_leaf] gave, and the tree is the one [get_leaf] left. *)
Theorem get_decodes_to_leaf :
  forall (index : pyval) (t t' : tree) (b : bytes),
    get index t = (Ok b, t') ->
    exists s,
      super (get_leaf (int_value index)) t = (Ok s, t') /\
      py_decode b = Ok s.
Proof.
  intros index t t' b. unfold get.
  destruct (negb (isinstance index Tint)); [discriminate|].
  unfold bind, lift.
  destruct (super (get_leaf (int_value index)) t) as [[s|e] t1];
    [|discriminate].
  destruct (py_encode s) as [b'|e] eqn:Es; [|discriminate].
  intros [= <- <-]. exists s. split; [reflexivity|].
  exact (py_decode_encode _ Es).
Qed.

(** X17: [verify_proof_of_inclusion] on a proof either raises
    [UnicodeDecodeError] with the tree untouched and the inherited
    verifier not called, when some key, value, target or root is not
    UTF-8, or is the inherited verifier on the decoded entries, target and
    root.  It does not answer [False] for bytes it cannot decode. *)
Theorem verify_decodes_or_raises :
  forall (p : InclusionProof) (t : tree),
    verify_proof_of_inclusion (OProof p) t = (Raise UnicodeDecodeError, t)
    \/
    exists str_proof target_str root_str,
      convert_proof py_decode (proof p) [] = Ok str_proof /\
      py_decode (target p) = Ok target_str /\
      py_decode (trie_root p) = Ok root_str /\
      verify_proof_of_inclusion (OProof p) t
      = super (super_verify_proof_of_inclusion
                 str_proof target_str root_str) t.
Proof.
  intros p t. unfold verify_proof_of_inclusion, bind, lift.
  destruct (convert_proof py_decode (proof p) []) as [str_proof|e] eqn:Ep.
  2:{ left. f_equal. f_equal.
      eapply convert_proof_raises; [exact py_decode_raises | exact Ep]. }
  destruct (py_decode (target p)) as [target_str|e] eqn:Et.
  2:{ left. f_equal. f_equal. exact (py_decode_raises _ Et). }
  destruct (py_decode (trie_root p)) as [root_str|e] eqn:Er.
  2:{ left. f_equal. f_equal. exact (py_decode_raises _ Er). }
  right. exists str_proof, target_str, root_str. auto.
Qed.

(** X18: a tree that was constructed was constructed with a [bool]: its
    [_secure] is that [bool] and its inherited part is what the inherited
    [__init__] gave for [hash_type]. *)
Theorem new_tree_attributes :
  forall (secure hash_type : pyval) (t : tree),
    new secure hash_type = Ok t ->
    secure = VBool (_secure t) /\ super_init hash_type = Ok (base t).
Proof.
  intros secure hash_type t.
  destruct secure as [[| b | | |]|]; try discriminate.
  rewrite init_bool_secure.
  destruct (super_init hash_type) as [b0|e]; [|discriminate].
  cbn [rbind]. intros [= <-]. split; reflexivity.
Qed.

End ProofMethodTheorems.

Section IndexTheorems.
Context {B : Type} `{MerkleTools B}.

(** X19: an index the inherited [get_leaf] rejects is rejected in the same
    way by [get] and by [get_proof_of_inclusion]: they raise what
    [get_leaf] raised and stop there; no proof is generated and no build
    is started. *)
Theorem rejected_index_stops_both :
  forall (index : pyval) (t t1 : MerkleTree B) (e : exn),
    isinstance index Tint = true ->
    super (get_leaf (int_value index)) t = (Raise e, t1) ->
    get index t = (Raise e, t1) /\
    get_proof_of_inclusion index t = (Raise e, t1).
Proof.
  intros index t t1 e Hi Hl. unfold get, get_proof_of_inclusion.
  rewrite Hi. cbn [negb]. split.
  - unfold bind. rewrite Hl. reflexivity.
  - unfold bind at 1. rewrite Hl. reflexivity.
Qed.

End IndexTheorems.

(** ** The further properties at concrete trees *)

Example three_leaves_proof_of_leaf_2 :
  get_proof_of_inclusion (H := toy_tools) (VInt 2) three_leaves
  = (Ok proof_of_leaf_2, three_leaves_built).
Proof. reflexivity. Qed.

Lemma convert_value_rejects_other_types_witness :
  isinstance (VInt 5) Tbytes = false /\
  isinstance (VInt 5) Tstr = false /\
  isinstance (VInt 5) Tdict = false /\
  convert_value (H := toy_tools) (VInt 5) fresh_tree
  = (Raise TypeError, fresh_tree).
Proof.
  split; [reflexivity|]. split; [reflexivity|]. split; [reflexivity|].
  apply (@convert_value_rejects_other_types Spec.tools toy_tools
           (VInt 5) fresh_tree); reflexivity.
Defined.

Lemma convert_value_not_secure_witness :
  _secure three_leaves = false /\
  isinstance (VDict [(AStr (lit "a"), VStr (lit "b"))]) Tbytes
  || isinstance (VDict [(AStr (lit "a"), VStr (lit "b"))]) Tstr
  || isinstance (VDict [(AStr (lit "a"), VStr (lit "b"))]) Tdict = true /\
  convert_value (H := toy_tools)
    (VDict [(AStr (lit "a"), VStr (lit "b"))]) three_leaves
  = (Ok (VDict [(AStr (lit "a"), VStr (lit "b"))]), three_leaves).
Proof.
  split; [reflexivity|]. split; [reflexivity|].
  apply (@convert_value_not_secure Spec.tools toy_tools
           (VDict [(AStr (lit "a"), VStr (lit "b"))]) three_leaves);
    reflexivity.
Defined.

Lemma index_must_be_int_witness :
  isinstance (VStr (lit "0")) Tint = false /\
  get (H := toy_tools) (VStr (lit "0")) three_leaves
  = (Raise TypeError, three_leaves) /\
  get_proof_of_inclusion (H := toy_tools) (VStr (lit "0")) three_leaves
  = (Raise TypeError, three_leaves).
Proof.
  split; [reflexivity|].
  apply (@index_must_be_int Spec.tools toy_tools
           (VStr (lit "0")) three_leaves).
  reflexivity.
Defined.

Lemma convert_proof_one_item_each_witness :
  convert_proof py_encode
    [[(lit "right", lit "03"); (lit "left", lit "425c")]; []] []
  = Ok [[(ascii_bytes (lit "right"), ascii_bytes (lit "03"))];
        [(ascii_bytes (lit "left"), ascii_bytes (lit "425c"))]] /\
  Forall (fun d => length d = 1)
    [[(ascii_bytes (lit "right"), ascii_bytes (lit "03"))];
     [(ascii_bytes (lit "left"), ascii_bytes (lit "425c"))]] /\
  length [[(ascii_bytes (lit "right"), ascii_bytes (lit "03"))];
          [(ascii_bytes (lit "left"), ascii_bytes (lit "425c"))]]
  = length (concat [[(lit "right", lit "03"); (lit "left", lit "425c")];
                    []]).
Proof.
  split; [reflexivity|].
  apply (@convert_proof_one_item_each pystr bytes py_encode
           [[(lit "right", lit "03"); (lit "left", lit "425c")]; []]).
  reflexivity.
Defined.

Lemma byte_proof_decodes_back_witness :
  convert_proof py_encode [[(lit "right", [233%N; 0x20AC%N])]] []
  = Ok [[(ascii_bytes (lit "right"), [xc3; xa9; xe2; x82; xac])]] /\
  convert_proof py_decode
    [[(ascii_bytes (lit "right"), [xc3; xa9; xe2; x82; xac])]] []
  = Ok (single_items [[(lit "right", [233%N; 0x20AC%N])]]).
Proof.
  split; [reflexivity|].
  apply (@byte_proof_decodes_back [[(lit "right", [233%N; 0x20AC%N])]]).
  reflexivity.
Defined.

Lemma proof_target_is_get_witness :
  get_proof_of_inclusion (H := toy_tools) (VInt 2) three_leaves
  = (Ok proof_of_leaf_2, three_leaves_built) /\
  fst (get (H := toy_tools) (VInt 2) three_leaves)
  = Ok (target proof_of_leaf_2).
Proof.
  split; [reflexivity|].
  apply (@proof_target_is_get Spec.tools toy_tools (VInt 2) three_leaves
           three_leaves_built proof_of_leaf_2).
  reflexivity.
Defined.

Lemma verify_generated_proof_witness :
  get_proof_of_inclusion (H := toy_tools) (VInt 2) three_leaves
  = (Ok proof_of_leaf_2, three_leaves_built) /\
  exists key path root t1 t2,
    super (get_leaf (MerkleTools := toy_tools) (int_value (VInt 2)))
      three_leaves = (Ok key, t1) /\
    super (super_get_proof_of_inclusion (MerkleTools := toy_tools)
             (int_value (VInt 2))) t1 = (Ok path, t2) /\
    get_merkle_root (H := toy_tools) t2 = (Ok root, three_leaves_built) /\
    forall u : MerkleTree Spec.tools,
      verify_proof_of_inclusion (H := toy_tools) (OProof proof_of_leaf_2) u
      = super (super_verify_proof_of_inclusion (MerkleTools := toy_tools)
                 (single_items path) key root) u.
Proof.
  split; [reflexivity|].
  apply (@verify_generated_proof Spec.tools toy_tools (VInt 2) three_leaves
           three_leaves_built proof_of_leaf_2).
  reflexivity.
Defined.

Lemma get_decodes_to_leaf_witness :
  get (H := toy_tools) (VInt 1) three_leaves
  = (Ok (ascii_bytes (lit "6162")), three_leaves) /\
  exists s,
    super (get_leaf (MerkleTools := toy_tools) (int_value (VInt 1)))
      three_leaves = (Ok s, three_leaves) /\
    py_decode (ascii_bytes (lit "6162")) = Ok s.
Proof.
  split; [reflexivity|].
  apply (@get_decodes_to_leaf Spec.tools toy_tools (VInt 1) three_leaves
           three_leaves (ascii_bytes (lit "6162"))).
  reflexivity.
Defined.

Lemma new_tree_attributes_witness :
  new (H := toy_tools) (VBool true) (VStr (lit "poly16")) = Ok fresh_tree /\
  VBool true = VBool (_secure fresh_tree) /\
  super_init (MerkleTools := toy_tools) (VStr (lit "poly16"))
  = Ok (base fresh_tree).
Proof.
  split; [reflexivity|].
  apply (@new_tree_attributes Spec.tools toy_tools (VBool true)
           (VStr (lit "poly16")) fresh_tree).
  reflexivity.
Defined.

Lemma rejected_index_stops_both_witness :
  isinstance (VInt 3) Tint = true /\
  super (get_leaf (MerkleTools := toy_tools) (int_value (VInt 3)))
    three_leaves = (Raise IndexOutOfRange, three_leaves) /\
  get (H := toy_tools) (VInt 3) three_leaves
  = (Raise IndexOutOfRange, three_leaves) /\
  get_proof_of_inclusion (H := toy_tools) (VInt 3) three_leaves
  = (Raise IndexOutOfRange, three_leaves).
Proof.
  split; [reflexivity|]. split; [reflexivity|].
  apply (@rejected_index_stops_both Spec.tools toy_tools (VInt 3)
           three_leaves three_leaves IndexOutOfRange); reflexivity.
Defined.
